(** * FileUpload.tsx: the upload / analyse / poll / format pipeline

    A shallow embedding of [src/components/FileUpload.tsx]:
    - [validateAndFormatResponse], the pure response formatter;
    - [handleFileChange], [processWithAssistant] and [handleUpload], the
      stateful part, as a labelled transition system whose labels are the
      user's actions and the replies of the remote assistant service.

    JavaScript strings are sequences of UTF-16 code units; they are modelled
    as lists of code units so that the bullet U+2022, the line terminators
    U+2028 / U+2029 and the Unicode white space removed by [trim] are all
    representable. *)

From Stdlib Require Import List NArith Bool String Ascii Lia.
Import ListNotations.

Local Open Scope N_scope.
Local Open Scope list_scope.

(* ================================================================== *)
(** ** JavaScript strings *)
(* ================================================================== *)

Module JS.

Definition jsstring := list N.

(** An ASCII literal as a JavaScript string. *)
Definition js (s : string) : jsstring :=
  map N_of_ascii (list_ascii_of_string s).

(** [a === b] on strings. *)
Fixpoint eqb (a b : jsstring) : bool :=
  match a, b with
  | [], [] => true
  | x :: a', y :: b' => (x =? y) && eqb a' b'
  | _, _ => false
  end.

(** ECMAScript LineTerminator: LF, CR, LS, PS.  These are the code units
    that [.] does not match and next to which [^] and [$] match under the
    [m] flag. *)
Definition LineTerminator (c : N) : bool :=
  (c =? 10) || (c =? 13) || (c =? 8232) || (c =? 8233).

(** ECMAScript WhiteSpace (TAB, VT, FF, SP, NBSP, ZWNBSP and the Unicode
    space separators). *)
Definition WhiteSpace (c : N) : bool :=
  (c =? 9) || (c =? 11) || (c =? 12) || (c =? 32) || (c =? 160) ||
  (c =? 5760) || ((8192 <=? c) && (c <=? 8202)) || (c =? 8239) ||
  (c =? 8287) || (c =? 12288) || (c =? 65279).

(** What [String.prototype.trim] strips: WhiteSpace and LineTerminator. *)
Definition isTrimmed (c : N) : bool := WhiteSpace c || LineTerminator c.

Fixpoint trimStart (s : jsstring) : jsstring :=
  match s with
  | [] => []
  | c :: t => if isTrimmed c then trimStart t else s
  end.

Fixpoint trimEnd (s : jsstring) : jsstring :=
  match s with
  | [] => []
  | c :: t =>
      match trimEnd t with
      | [] => if isTrimmed c then [] else [c]
      | r => c :: r
      end
  end.

(** [s.trim()] *)
Definition trim (s : jsstring) : jsstring := trimEnd (trimStart s).

(** [s.startsWith(p)] *)
Fixpoint startsWith (p s : jsstring) : bool :=
  match p with
  | [] => true
  | a :: p' =>
      match s with
      | [] => false
      | c :: s' => (a =? c) && startsWith p' s'
      end
  end.

(** [s.split(d)] for a one-unit separator [d]; the result is never empty
    (the empty string splits into one empty piece). *)
Fixpoint split (d : N) (s : jsstring) : list jsstring :=
  match s with
  | [] => [[]]
  | c :: t =>
      if c =? d then [] :: split d t
      else match split d t with
           | l :: ls => (c :: l) :: ls
           | [] => [[c]]
           end
  end.

(** [a.join(sep)] *)
Fixpoint join (sep : jsstring) (a : list jsstring) : jsstring :=
  match a with
  | [] => []
  | [l] => l
  | l :: ls => l ++ sep ++ join sep ls
  end.

(** [s.replace(/\r\n/g, '\n')] *)
Fixpoint replace_crlf (s : jsstring) : jsstring :=
  match s with
  | [] => []
  | c :: t =>
      match t with
      | d :: t' =>
          if (c =? 13) && (d =? 10) then 10 :: replace_crlf t'
          else c :: replace_crlf t
      | [] => [c]
      end
  end.

(** [s.replace(/^P.*$/gm, '')] for a literal [P] that is not empty and holds
    no line terminator.  The scan goes left to right as the regular
    expression engine does.  [bol] says that the current position is one
    where [^] matches (index 0, or just after a line terminator); [skip]
    says that the position lies inside a match, whose greedy [.*] runs to
    the next line terminator (where [$] matches), so that every unit up to
    there is replaced by nothing.  An optional [:?] between the literal and
    [.*] consumes a unit that [.*] would consume anyway. *)
Fixpoint replace_line (p : jsstring) (bol skip : bool) (s : jsstring)
  : jsstring :=
  match s with
  | [] => []
  | c :: t =>
      if LineTerminator c then c :: replace_line p true false t
      else if skip then replace_line p false true t
      else if bol && startsWith p s then replace_line p false true t
      else c :: replace_line p false false t
  end.

Definition replace_gm (p s : jsstring) : jsstring := replace_line p true false s.

End JS.

Import JS.

(* ================================================================== *)
(** ** The response formatter *)
(* ================================================================== *)

(** [AssistantType], imported by the component from [../config/assistants]. *)
Inductive AssistantType := INSIGHTS | ACHIEVEMENTS | RESEARCH_IDEAS.

Definition nl : jsstring := [10].

Definition isDigit (c : N) : bool := (48 <=? c) && (c <=? 57).

(** [\d+\.] at the start of [s]; [seen] records that a digit was read. *)
Fixpoint digitsDot (seen : bool) (s : jsstring) : bool :=
  match s with
  | [] => false
  | c :: t => if isDigit c then digitsDot true t else seen && (c =? 46)
  end.

(** [[-*•]] at the start of [s]. *)
Definition bulletChar (s : jsstring) : bool :=
  match s with
  | [] => false
  | c :: _ => (c =? 45) || (c =? 42) || (c =? 8226)
  end.

(** [/^(\d+\.|[-*•])/.test(s)] *)
Definition hasMarker (s : jsstring) : bool := digitsDot false s || bulletChar s.

(** The callback of [lines.map]. *)
Definition formatLine (line : jsstring) : jsstring :=
  match trim line with
  | [] => []
  | t => if negb (hasMarker t) then js "- " ++ t else t
  end.

(** [Boolean(s)] for a string. *)
Definition truthy (s : jsstring) : bool :=
  match s with [] => false | _ => true end.

(** Lines 16 to 21: white space, line endings and preamble lines. *)
Definition stripPreamble (content : jsstring) : jsstring :=
  let formattedContent := replace_crlf (trim content) in
  let formattedContent := trim (replace_gm (js "#") formattedContent) in
  let formattedContent := trim (replace_gm (js "Introduction") formattedContent) in
  trim (replace_gm (js "Summary") formattedContent).

(** The array that lines 25 to 36 build before it is joined. *)
Definition bodyLines (content : jsstring) : list jsstring :=
  filter truthy (map formatLine (split 10 (stripPreamble content))).

(** The value of [formatted] before the [switch]. *)
Definition body (content : jsstring) : jsstring := join nl (bodyLines content).

(** The heading line chosen by the [switch]. *)
Definition title (type : AssistantType) : jsstring :=
  match type with
  | INSIGHTS => js "## Key Research Insights"
  | ACHIEVEMENTS => js "## Notable Achievements"
  | RESEARCH_IDEAS => js "## Research Opportunities"
  end.

(** What the template literal puts before [formatted]. *)
Definition heading (type : AssistantType) : jsstring :=
  title type ++ nl ++ nl.

Definition validateAndFormatResponse (content : jsstring) (type : AssistantType)
  : jsstring :=
  heading type ++ body content.

(* ================================================================== *)
(** ** The component state *)
(* ================================================================== *)

Module Status.

Inductive t := idle | loading | complete | error.

Definition eqb (a b : t) : bool :=
  match a, b with
  | idle, idle | loading, loading | complete, complete | error, error => true
  | _, _ => false
  end.

End Status.

(** [AnalysisResult], imported from [../config/assistants]; the optional
    [error] field is absent ([None]) or holds a message. *)
Record AnalysisResult := mkResult {
  type : AssistantType;
  content : jsstring;
  status : Status.t;
  error : option jsstring
}.

(** [Record<AssistantType, AnalysisResult>]: one entry per key. *)
Record Results := mkResults {
  at_INSIGHTS : AnalysisResult;
  at_ACHIEVEMENTS : AnalysisResult;
  at_RESEARCH_IDEAS : AnalysisResult
}.

(** [r[k]] *)
Definition get (k : AssistantType) (r : Results) : AnalysisResult :=
  match k with
  | INSIGHTS => at_INSIGHTS r
  | ACHIEVEMENTS => at_ACHIEVEMENTS r
  | RESEARCH_IDEAS => at_RESEARCH_IDEAS r
  end.

(** [{ ...r, [k]: v }] *)
Definition set (k : AssistantType) (v : AnalysisResult) (r : Results) : Results :=
  match k with
  | INSIGHTS => mkResults v (at_ACHIEVEMENTS r) (at_RESEARCH_IDEAS r)
  | ACHIEVEMENTS => mkResults (at_INSIGHTS r) v (at_RESEARCH_IDEAS r)
  | RESEARCH_IDEAS => mkResults (at_INSIGHTS r) (at_ACHIEVEMENTS r) v
  end.

Definition initialResults : Results :=
  mkResults (mkResult INSIGHTS [] Status.idle None)
            (mkResult ACHIEVEMENTS [] Status.idle None)
            (mkResult RESEARCH_IDEAS [] Status.idle None).

(** The part of a DOM [File] that the component reads. *)
Module File.

Record t := mk { name : jsstring; type : jsstring }.

End File.

(** Modelled from the spec: [ASSISTANTS] of [../config/assistants] is "a
    fixed mapping from each AnalysisKind to a pre-provisioned remote
    assistant identifier"; only its keys matter here. *)
Definition ASSISTANTS_keys : list AssistantType :=
  [INSIGHTS; ACHIEVEMENTS; RESEARCH_IDEAS].

(** [Object.keys(prev)] for a [Results] object. *)
Definition Results_keys : list AssistantType :=
  [INSIGHTS; ACHIEVEMENTS; RESEARCH_IDEAS].

(** [`${assistantType}`] *)
Definition typeName (k : AssistantType) : jsstring :=
  match k with
  | INSIGHTS => js "INSIGHTS"
  | ACHIEVEMENTS => js "ACHIEVEMENTS"
  | RESEARCH_IDEAS => js "RESEARCH_IDEAS"
  end.

(* ================================================================== *)
(** ** The remote assistant service, seen from the component *)
(* ================================================================== *)

(** A thrown value: an [Error] with its message, or anything else. *)
Inductive thrown := ErrorObject (message : jsstring) | NonError.

(** [err instanceof Error ? err.message : fallback] *)
Definition messageOf (err : thrown) (fallback : jsstring) : jsstring :=
  match err with
  | ErrorObject m => m
  | NonError => fallback
  end.

(** One content segment of a thread message: a text segment with its
    (possibly missing) [text.value], or a segment of another type. *)
Inductive ContentItem := TextItem (value : option jsstring) | OtherItem.

Module Message.

Record t := mk { role : jsstring; content : option (list ContentItem) }.

End Message.

(** How an awaited promise settles.  Identifiers returned by the service
    (file, thread, message, run) are only passed back to it, so [Resolved]
    carries none. *)
Inductive reply :=
| Resolved
| ResolvedRun (run_status : jsstring)
| ResolvedMessages (data : list Message.t)
| Rejected (err : thrown).

(** The [await] at which an invocation of [processWithAssistant] is
    suspended. *)
Inductive Await :=
| threads_create        (* line 87 *)
| messages_create       (* line 174 *)
| runs_create           (* line 180 *)
| runs_retrieve_first   (* line 184 *)
| poll_delay            (* line 186 *)
| runs_retrieve_poll    (* line 187 *)
| messages_list.        (* line 194 *)

(** What the body of the [try] does when it is resumed. *)
Inductive Outcome :=
| Continue (a : Await)
| Complete (formattedContent : jsstring)
| Throw (err : thrown).

(** The condition of the [while] loop. *)
Definition stillRunning (run_status : jsstring) : bool :=
  JS.eqb run_status (js "queued") || JS.eqb run_status (js "in_progress").

(** [item.type === 'text' ? item.text?.value || "" : ""] *)
Definition itemText (item : ContentItem) : jsstring :=
  match item with
  | TextItem (Some v) => v
  | TextItem None => []
  | OtherItem => []
  end.

(** Lines 194 to 206. *)
Definition readResponse (k : AssistantType) (data : list Message.t) : Outcome :=
  let assistantMessage :=
    find (fun msg => JS.eqb (Message.role msg) (js "assistant")) data in
  match assistantMessage with
  | Some (Message.mk _ (Some items)) =>
      Complete (validateAndFormatResponse
                  (join (nl ++ nl) (map itemText items)) k)
  | _ => Throw (ErrorObject (js "No response received for " ++ typeName k))
  end.

(** After a status retrieval that did not throw: test the loop condition. *)
Definition loopTest (run_status : jsstring) : Outcome :=
  if stillRunning run_status then Continue poll_delay
  else Continue messages_list.

(** Resuming [processWithAssistant] at await [a] with reply [r]; [None]
    when the awaited promise cannot settle that way. *)
Definition resume (k : AssistantType) (a : Await) (r : reply) : option Outcome :=
  match a, r with
  | poll_delay, Resolved => Some (Continue runs_retrieve_poll)
  | poll_delay, _ => None
  | _, Rejected err => Some (Throw err)
  | threads_create, Resolved => Some (Continue messages_create)
  | messages_create, Resolved => Some (Continue runs_create)
  | runs_create, Resolved => Some (Continue runs_retrieve_first)
  | runs_retrieve_first, ResolvedRun st => Some (loopTest st)
  | runs_retrieve_poll, ResolvedRun st =>
      if JS.eqb st (js "failed")
      then Some (Throw (ErrorObject (js "Analysis failed for " ++ typeName k)))
      else Some (loopTest st)
  | messages_list, ResolvedMessages data => Some (readResponse k data)
  | _, _ => None
  end.

(** The three [setResults] updaters of [processWithAssistant]. *)
Definition setLoading (k : AssistantType) (prev : Results) : Results :=
  let p := get k prev in
  set k (mkResult (type p) (content p) Status.loading (error p)) prev.

Definition setComplete (k : AssistantType) (formattedContent : jsstring)
  (prev : Results) : Results :=
  set k (mkResult k formattedContent Status.complete None) prev.

Definition setError (k : AssistantType) (message : jsstring) (prev : Results)
  : Results :=
  let p := get k prev in
  set k (mkResult (type p) (content p) Status.error (Some message)) prev.

(** The updater of the [catch] of [handleUpload]: a [reduce] over
    [Object.keys(prev)].  The source accumulates from the empty object; every
    key of [prev] is written, so accumulating from [prev] gives the same
    record. *)
Definition setAllError (message : jsstring) (prev : Results) : Results :=
  fold_left
    (fun acc key =>
       let p := get key prev in
       set key (mkResult (type p) (content p) Status.error (Some message)) acc)
    Results_keys
    prev.

(** An asynchronous activity in flight: the upload of [handleUpload]
    (line 233), or an invocation of [processWithAssistant] suspended at an
    [await].  A throw of the client constructor (line 228) reaches the same
    [catch] as a rejected upload. *)
Inductive Task := upload | job (k : AssistantType) (a : Await).

Record State := mkState {
  file : option File.t;
  results : Results;
  pending : list Task
}.

Definition init : State := mkState None initialResults [].

(** [handleFileChange]; [files] is [e.target.files], empty when it is
    null or holds no file. *)
Definition handleFileChange (files : list File.t) (s : State) : State :=
  match files with
  | [] => s
  | selectedFile :: _ =>
      if JS.eqb (File.type selectedFile) (js "application/pdf")
      then mkState (Some selectedFile) initialResults (pending s)
      else
        let i := at_INSIGHTS initialResults in
        mkState None
          (set INSIGHTS
             (mkResult (type i) (content i) Status.error
                (Some (js "Please upload a PDF file")))
             initialResults)
          (pending s)
  end.

(** [Object.values(results).some(r => r.status === 'loading')] *)
Definition someLoading (r : Results) : bool :=
  existsb (fun k => Status.eqb (status (get k r)) Status.loading) Results_keys.

(** The Analyze button is rendered when a file is stored and is disabled
    while some result is loading. *)
Definition buttonEnabled (s : State) : bool :=
  match file s with
  | Some _ => negb (someLoading (results s))
  | None => false
  end.

(** [handleUpload] up to its first [await] (the upload). *)
Definition handleUpload (s : State) : State :=
  match file s with
  | None => s
  | Some _ => mkState (file s) (results s) (pending s ++ [upload])
  end.

(** The synchronous start of the jobs once the upload has resolved: every
    call of [processWithAssistant] runs up to its first [await]. *)
Definition launch (keys : list AssistantType) (r : Results) : Results :=
  fold_left (fun acc k => setLoading k acc) keys r.

Fixpoint remove_nth {A} (i : nat) (l : list A) : list A :=
  match l, i with
  | [], _ => []
  | _ :: t, O => t
  | x :: t, S j => x :: remove_nth j t
  end.

Fixpoint replace_nth {A} (i : nat) (y : A) (l : list A) : list A :=
  match l, i with
  | [], _ => []
  | _ :: t, O => y :: t
  | x :: t, S j => x :: replace_nth j y t
  end.

(** The [i]-th pending activity settles with reply [r]. *)
Definition settle (i : nat) (r : reply) (s : State) : option State :=
  match nth_error (pending s) i with
  | None => None
  | Some upload =>
      match r with
      | Resolved =>
          Some (mkState (file s)
                  (launch ASSISTANTS_keys (results s))
                  (remove_nth i (pending s)
                   ++ map (fun k => job k threads_create) ASSISTANTS_keys))
      | Rejected err =>
          Some (mkState (file s)
                  (setAllError (messageOf err (js "Upload failed")) (results s))
                  (remove_nth i (pending s)))
      | _ => None
      end
  | Some (job k a) =>
      match resume k a r with
      | None => None
      | Some (Continue a') =>
          Some (mkState (file s) (results s)
                  (replace_nth i (job k a') (pending s)))
      | Some (Complete formattedContent) =>
          Some (mkState (file s)
                  (setComplete k formattedContent (results s))
                  (remove_nth i (pending s)))
      | Some (Throw err) =>
          Some (mkState (file s)
                  (setError k (messageOf err (js "Analysis failed")) (results s))
                  (remove_nth i (pending s)))
      end
  end.

(** What can happen to the component. *)
Inductive Event :=
| change (files : list File.t)     (* the file input changes *)
| click                            (* the Analyze button is clicked *)
| settled (i : nat) (r : reply).   (* an awaited promise settles *)

Definition step (s : State) (ev : Event) : option State :=
  match ev with
  | change files => Some (handleFileChange files s)
  | click => if buttonEnabled s then Some (handleUpload s) else None
  | settled i r => settle i r s
  end.

Fixpoint run (s : State) (evs : list Event) : option State :=
  match evs with
  | [] => Some s
  | ev :: evs' =>
      match step s ev with
      | Some s' => run s' evs'
      | None => None
      end
  end.

Inductive reachable : State -> Prop :=
| reachable_init : reachable init
| reachable_step s ev s' :
    reachable s -> step s ev = Some s' -> reachable s'.

(* ================================================================== *)
(** ** Predicates of the statements and proofs *)
(* ================================================================== *)

(** No position of [s] is the start of a match of [/^p.*$/m]; [bol] says
    whether [^] matches at the first position. *)
Fixpoint clean (p : jsstring) (bol : bool) (s : jsstring) : bool :=
  match s with
  | [] => true
  | c :: t => negb (bol && startsWith p s) && clean p (LineTerminator c) t
  end.

(** [s] holds no CR immediately followed by LF. *)
Fixpoint no_crlf (s : jsstring) : bool :=
  match s with
  | [] => true
  | c :: t =>
      match t with
      | d :: _ => negb ((c =? 13) && (d =? 10)) && no_crlf t
      | [] => true
      end
  end.

(** A literal that [replace_line] models faithfully: not empty, without
    line terminators. *)
Definition literal (p : jsstring) : Prop :=
  p <> [] /\ Forall (fun c => LineTerminator c = false) p.

(** The literals of the three preamble patterns. *)
Definition preamble : list jsstring :=
  [js "#"; js "Introduction"; js "Summary"].

(** A first code unit with which a marker can start. *)
Definition markerHead (c : N) : bool :=
  isDigit c || (c =? 45) || (c =? 42) || (c =? 8226).

(** An output line of the formatter: trimmed, starting with a marker, on one
    line, and matching no preamble pattern. *)
Definition formatted_line (o : jsstring) : Prop :=
  o <> [] /\ trim o = o /\ hasMarker o = true /\ ~ In 10 o /\
  (forall p, In p preamble -> clean p true o = true).

(** [line.trim()] is not the empty string. *)
Definition nonBlank (line : jsstring) : bool := truthy (trim line).

(** The lines of the text that are left after the preamble stage and are not
    blank, in order: the lines that reach the output. *)
Definition surviving (content : jsstring) : list jsstring :=
  filter nonBlank (split 10 (stripPreamble content)).

(** The lines of the formatter's result. *)
Definition outputLines (content : jsstring) (type : AssistantType)
  : list jsstring :=
  split 10 (validateAndFormatResponse content type).

(** The result record as the data model describes it: [content] is not
    empty exactly when the status is complete, and [error] is set exactly
    when the status is error. *)
Definition consistent (r : AnalysisResult) : Prop :=
  (content r <> [] <-> status r = Status.complete) /\
  (error r <> None <-> status r = Status.error).

(** The directions of [consistent] that survive a repeated analysis, with
    what idle and complete records hold. *)
Definition sound (r : AnalysisResult) : Prop :=
  (status r = Status.complete -> content r <> [] /\ error r = None) /\
  (status r = Status.error -> error r <> None) /\
  (status r = Status.idle -> content r = [] /\ error r = None).


Definition AssistantType_eqb (a b : AssistantType) : bool :=
  match a, b with
  | INSIGHTS, INSIGHTS
  | ACHIEVEMENTS, ACHIEVEMENTS
  | RESEARCH_IDEAS, RESEARCH_IDEAS => true
  | _, _ => false
  end.

Definition isUpload (t : Task) : bool :=
  match t with upload => true | job _ _ => false end.

Definition isJob (k : AssistantType) (t : Task) : bool :=
  match t with upload => false | job k' _ => AssistantType_eqb k k' end.

(** How many activities of a kind are in flight. *)
Definition count (f : Task -> bool) (l : list Task) : nat :=
  List.length (filter f l).

(** Histories in which the user acts only while nothing is in flight and
    asks for an analysis only of freshly reset results: every analysis then
    runs alone, from [initialResults], to its end. *)
Inductive undisturbed : State -> Prop :=
| undisturbed_init : undisturbed init
| undisturbed_change s files :
    undisturbed s -> pending s = [] ->
    undisturbed (handleFileChange files s)
| undisturbed_click s :
    undisturbed s -> pending s = [] -> results s = initialResults ->
    buttonEnabled s = true ->
    undisturbed (handleUpload s)
| undisturbed_settled s i r s' :
    undisturbed s -> settle i r s = Some s' -> undisturbed s'.

(** What holds of the states of [undisturbed] histories: the results are
    [consistent], and either the upload alone is pending over the initial
    results, or no upload is pending and each kind has one job in flight and
    is loading, or has none and is not loading. *)
Definition steady (s : State) : Prop :=
  (forall k, consistent (get k (results s))) /\
  ((pending s = [upload] /\ results s = initialResults) \/
   (count isUpload (pending s) = 0%nat /\
    forall k,
      (count (isJob k) (pending s) = 1%nat /\
       status (get k (results s)) = Status.loading) \/
      (count (isJob k) (pending s) = 0%nat /\
       status (get k (results s)) <> Status.loading))).

(** How the status of a kind may change in one step of an [undisturbed]
    history, each change with the event that makes it: not at all; from idle
    to loading when the upload resolves; from loading to complete or to
    error when the job of that very kind settles; from idle to error when
    the upload rejects; or by the selection of a file, which sets it to idle,
    except that the selection of a file that is not a PDF sets INSIGHTS to
    error. *)
Definition status_change (s : State) (ev : Event) (k : AssistantType)
  (a b : Status.t) : Prop :=
  a = b \/
  (exists i, ev = settled i Resolved /\
             nth_error (pending s) i = Some upload /\
             a = Status.idle /\ b = Status.loading) \/
  (exists i r w, ev = settled i r /\
                 nth_error (pending s) i = Some (job k w) /\
                 a = Status.loading /\
                 (b = Status.complete \/ b = Status.error)) \/
  (exists i err, ev = settled i (Rejected err) /\
                 nth_error (pending s) i = Some upload /\
                 a = Status.idle /\ b = Status.error) \/
  (exists f others,
     ev = change (f :: others) /\
     ((File.type f = js "application/pdf" /\ b = Status.idle) \/
      (File.type f <> js "application/pdf" /\
       ((k = INSIGHTS /\ b = Status.error) \/
        (k <> INSIGHTS /\ b = Status.idle))))).

(** The first message of the thread listing whose role is assistant. *)
Definition assistantMessage (data : list Message.t) : option Message.t :=
  find (fun msg => JS.eqb (Message.role msg) (js "assistant")) data.

(** A content segment that carries text. *)
Definition textBearing (item : ContentItem) : bool :=
  match item with
  | TextItem (Some (_ :: _)) => true
  | _ => false
  end.

(** The thread holds no assistant message, or the one located has no
    text-bearing segment. *)
Definition emptyResponse (data : list Message.t) : Prop :=
  match assistantMessage data with
  | None => True
  | Some m =>
      match Message.content m with
      | None => True
      | Some items => forallb (fun i => negb (textBearing i)) items = true
      end
  end.

(** *** Scenarios *)

Definition paper : File.t := File.mk (js "paper.pdf") (js "application/pdf").

(** An assistant message with one text segment. *)
Definition answer (value : jsstring) : Message.t :=
  Message.mk (js "assistant") (Some [TextItem (Some value)]).

Definition question : Message.t :=
  Message.mk (js "user") (Some [TextItem (Some (js "Analyze this paper"))]).

(** A paper is selected, the analysis is asked for and the upload resolves:
    the jobs for INSIGHTS, ACHIEVEMENTS and RESEARCH_IDEAS are pending at
    positions 0, 1 and 2. *)
Definition started : list Event :=
  [change [paper]; click; settled 0 Resolved].

(** The job at position [i] creates its thread, posts its message and
    starts its run. *)
Definition run_created (i : nat) : list Event :=
  [settled i Resolved; settled i Resolved; settled i Resolved].

(** The run of ACHIEVEMENTS is reported failed by the first status
    retrieval, and the thread holds an assistant message. *)
Definition failed_at_first_retrieval : list Event :=
  started ++ run_created 1 ++
  [settled 1 (ResolvedRun (js "failed"));
   settled 1 (ResolvedMessages [question; answer (js "Partial answer")])].

(** The run of INSIGHTS completes; its thread is about to be listed. *)
Definition listing_insights : list Event :=
  started ++ run_created 0 ++ [settled 0 (ResolvedRun (js "completed"))].

(** A first analysis in which INSIGHTS completes and the two other jobs
    fail. *)
Definition first_analysis : list Event :=
  listing_insights ++
  [settled 0 (ResolvedMessages [question; answer (js "Finding")]);
   settled 0 (Rejected NonError);
   settled 0 (Rejected NonError)].

(** The analysis of the same stored file is asked for again. *)
Definition second_click : list Event := first_analysis ++ [click].

(** The second upload resolves and the three jobs start again. *)
Definition analysed_twice : list Event := second_click ++ [settled 0 Resolved].

(** A file that is not a PDF. *)
Definition notes : File.t := File.mk (js "notes.txt") (js "text/plain").

(** The paper is stored and the results are the initial ones. *)
Definition selected : State := mkState (Some paper) initialResults [].

(** The analysis of the selected paper has been asked for. *)
Definition clicked : State := handleUpload selected.

(** The paper is stored, nothing is in flight, and the results hold what an
    earlier analysis left: a completed job and two failed ones. *)
Definition left_over : State :=
  mkState (Some paper)
    (mkResults
       (mkResult INSIGHTS (heading INSIGHTS ++ js "- Finding") Status.complete None)
       (mkResult ACHIEVEMENTS [] Status.error (Some (js "Analysis failed")))
       (mkResult RESEARCH_IDEAS [] Status.error (Some (js "Analysis failed"))))
    [].

(** *** The result panel *)

(** What [ResultCard] (lines 254 to 286) puts in the body of a card: the
    spinner, the error text [{result.error}], the rendered markdown of
    [result.content], or the description of the card. *)
Inductive Panel :=
| Analyzing
| ErrorText (message : option jsstring)
| Markdown (children : jsstring)
| Description (description : jsstring).

(** The conditional of lines 271 to 282 on [results[type]]. *)
Definition ResultCard (results : Results) (type : AssistantType)
  (description : jsstring) : Panel :=
  let result := get type results in
  match status result with
  | Status.loading => Analyzing
  | Status.error => ErrorText (error result)
  | Status.complete => Markdown (content result)
  | Status.idle => Description description
  end.

(** *** Inputs and histories of the further properties *)

(** A text with every line feed written as CR LF. *)
Fixpoint toCRLF (s : jsstring) : jsstring :=
  match s with
  | [] => []
  | c :: t => if c =? 10 then 13 :: 10 :: toCRLF t else c :: toCRLF t
  end.

(** The state [s] with the job at position [i] suspended at await [a]. *)
Definition at_await (s : State) (i : nat) (k : AssistantType) (a : Await)
  : State :=
  mkState (file s) (results s) (replace_nth i (job k a) (pending s)).

(** One turn of the polling loop of the job at position [i]: the delay
    elapses and the status is retrieved. *)
Definition pollRound (i : nat) (run_status : jsstring) : list Event :=
  [settled i Resolved; settled i (ResolvedRun run_status)].

Definition polling (i : nat) (statuses : list jsstring) : list Event :=
  flat_map (pollRound i) statuses.

(** The replies to a whole job at position [i]: the thread, the message and
    the run are created; the status retrievals return [waits] and then
    [final] (the first one before the loop, the others one per turn); the
    thread is listed as [data]. *)
Definition jobReplies (i : nat) (waits : list jsstring) (final : jsstring)
  (data : list Message.t) : list Event :=
  run_created i ++
  [settled i (ResolvedRun (hd final waits))] ++
  polling i (tl (waits ++ [final])) ++
  [settled i (ResolvedMessages data)].

(** The three jobs have just started on the selected paper. *)
Definition fanned_out : State :=
  mkState (Some paper) (launch ASSISTANTS_keys initialResults)
    (map (fun k => job k threads_create) ASSISTANTS_keys).

(* ================================================================== *)
(** ** Facts about the string primitives *)
(* ================================================================== *)

Module JSFacts.

Lemma eqb_eq (a b : jsstring) : JS.eqb a b = true <-> a = b.
Proof.
  revert b; induction a as [|x a IH]; intros [|y b]; simpl;
    try (split; congruence).
  rewrite andb_true_iff, N.eqb_eq, IH. split.
  - intros [-> ->]; reflexivity.
  - intros [= -> ->]; auto.
Qed.

Lemma eqb_neq (a b : jsstring) : JS.eqb a b = false <-> a <> b.
Proof.
  rewrite <- eqb_eq. destruct (JS.eqb a b); split; congruence.
Qed.

(** *** [trimStart] *)

Lemma trimStart_head s :
  match trimStart s with [] => True | c :: _ => isTrimmed c = false end.
Proof.
  induction s as [|c t IH]; simpl; [exact I|].
  destruct (isTrimmed c) eqn:E; [exact IH | exact E].
Qed.

Lemma trimStart_fixed c t : isTrimmed c = false -> trimStart (c :: t) = c :: t.
Proof. simpl; intros ->; reflexivity. Qed.

Lemma trimStart_suffix s : exists d, s = d ++ trimStart s.
Proof.
  induction s as [|c t [d IH]]; simpl.
  - exists []; reflexivity.
  - destruct (isTrimmed c).
    + exists (c :: d); simpl; congruence.
    + exists []; reflexivity.
Qed.

(** *** [trimEnd] *)

Lemma trimEnd_cons_nonempty c t :
  trimEnd t <> [] -> trimEnd (c :: t) = c :: trimEnd t.
Proof. simpl; destruct (trimEnd t); congruence. Qed.

Lemma trimEnd_keeps_head c t :
  isTrimmed c = false -> exists r, trimEnd (c :: t) = c :: r.
Proof.
  intros Hc; simpl. destruct (trimEnd t) as [|x r].
  - rewrite Hc; exists []; reflexivity.
  - exists (x :: r); reflexivity.
Qed.

Lemma trimEnd_idem s : trimEnd (trimEnd s) = trimEnd s.
Proof.
  induction s as [|c t IH]; simpl; [reflexivity|].
  destruct (trimEnd t) as [|x r] eqn:E.
  - destruct (isTrimmed c) eqn:Hc; simpl; [reflexivity|].
    rewrite Hc; reflexivity.
  - change (trimEnd (c :: x :: r) = c :: x :: r).
    rewrite trimEnd_cons_nonempty; rewrite IH; congruence.
Qed.

Lemma trimEnd_prefix s : exists w, s = trimEnd s ++ w.
Proof.
  induction s as [|c t [w IH]]; simpl.
  - exists []; reflexivity.
  - destruct (trimEnd t) as [|x r].
    + destruct (isTrimmed c).
      * exists (c :: t); reflexivity.
      * exists t; reflexivity.
    + exists w; simpl in *; congruence.
Qed.

Lemma trimEnd_app a b : trimEnd b <> [] -> trimEnd (a ++ b) = a ++ trimEnd b.
Proof.
  intros Hb; induction a as [|c a IH]; simpl; [reflexivity|].
  rewrite IH. destruct (a ++ trimEnd b) eqn:E; [|reflexivity].
  apply app_eq_nil in E; tauto.
Qed.

(** *** [trim] *)

Lemma trim_idem s : trim (trim s) = trim s.
Proof.
  unfold trim. pose proof (trimStart_head s) as H.
  destruct (trimStart s) as [|c t]; [reflexivity|].
  destruct (trimEnd_keeps_head c t H) as [r Hr].
  rewrite Hr, (trimStart_fixed c r H), <- Hr. apply trimEnd_idem.
Qed.

Lemma trim_cons_inv s c t :
  trim s = c :: t -> isTrimmed c = false /\ trimEnd (c :: t) = c :: t.
Proof.
  unfold trim; intros H. pose proof (trimStart_head s) as Hh.
  destruct (trimStart s) as [|c' t']; [discriminate|].
  destruct (trimEnd_keeps_head c' t' Hh) as [r Hr].
  assert (c' = c) by congruence; subst c'.
  split; [exact Hh|]. rewrite <- H. apply trimEnd_idem.
Qed.

Lemma trim_fixed c t :
  isTrimmed c = false -> trimEnd (c :: t) = c :: t -> trim (c :: t) = c :: t.
Proof. intros Hc He; unfold trim; rewrite trimStart_fixed; assumption. Qed.

Lemma trim_sub s x : In x (trim s) -> In x s.
Proof.
  unfold trim; intros H.
  destruct (trimEnd_prefix (trimStart s)) as [w Hw].
  destruct (trimStart_suffix s) as [d Hd].
  rewrite Hd, Hw. apply in_or_app; right. apply in_or_app; left; exact H.
Qed.

End JSFacts.

(** ** Facts about [replace_line] *)

Section Scan.

Variable p : jsstring.
Hypothesis p_literal : literal p.

Lemma startsWith_nil : startsWith p [] = false.
Proof. destruct p_literal as [H _]; destruct p; [congruence | reflexivity]. Qed.

Lemma startsWith_terminator c t :
  LineTerminator c = true -> startsWith p (c :: t) = false.
Proof.
  destruct p_literal as [H F]. destruct p as [|a q]; [congruence|].
  intros Hc; simpl. inversion F; subst.
  destruct (N.eqb_spec a c); [congruence | reflexivity].
Qed.

Lemma startsWith_app q s s' :
  startsWith q s = true -> startsWith q (s ++ s') = true.
Proof.
  revert s; induction q as [|a q IH]; intros [|c s]; simpl; try congruence.
  rewrite !andb_true_iff; intros [-> H]; auto.
Qed.

Lemma startsWith_cut q x c y :
  q <> [] -> Forall (fun c => LineTerminator c = false) q ->
  LineTerminator c = true ->
  startsWith q (x ++ c :: y) = startsWith q x.
Proof.
  intros Hq F Hc; revert q Hq F; induction x as [|d x IH]; intros [|a q] Hq F;
    try congruence; simpl.
  - inversion F; subst. destruct (N.eqb_spec a c); [congruence | reflexivity].
  - destruct q as [|b q]; [reflexivity|].
    inversion F; subst. rewrite IH; [reflexivity | congruence | assumption].
Qed.

(** A scan with any pattern [q] leaves the rest of the current line as it
    is. *)
Lemma startsWith_replace q r t :
  Forall (fun c => LineTerminator c = false) r ->
  startsWith r (replace_line q false false t) = startsWith r t.
Proof.
  intros F; revert r F; induction t as [|c t IH]; intros [|a r] F; simpl;
    try reflexivity.
  inversion F; subst.
  destruct (LineTerminator c) eqn:Hc; simpl.
  - destruct (N.eqb_spec a c); [congruence | reflexivity].
  - rewrite IH by assumption; reflexivity.
Qed.

Lemma startsWith_cons_replace q c t :
  startsWith p (c :: replace_line q false false t) = startsWith p (c :: t).
Proof.
  destruct p_literal as [_ F]. destruct p as [|a r]; [reflexivity|].
  simpl. inversion F; subst. rewrite startsWith_replace by assumption.
  reflexivity.
Qed.

(** Inside a match the scan emits nothing up to the next terminator. *)
Lemma startsWith_skipped q b t :
  startsWith p (replace_line q b true t) = false.
Proof.
  revert b; induction t as [|c t IH]; intros b; simpl.
  - apply startsWith_nil.
  - destruct (LineTerminator c) eqn:Hc.
    + apply startsWith_terminator; exact Hc.
    + apply IH.
Qed.

Lemma clean_weaken b s : clean p b s = true -> clean p false s = true.
Proof.
  destruct s as [|c t]; simpl; [auto|].
  rewrite andb_true_iff; intros [_ H]; exact H.
Qed.

Lemma clean_strengthen b s :
  startsWith p s = false -> clean p false s = true -> clean p b s = true.
Proof.
  destruct s as [|c t]; simpl; [auto|].
  intros ->. rewrite andb_false_r; auto.
Qed.

(** After the scan with [p], nothing matches [p] any more. *)
Lemma replace_line_clean b sk s : clean p b (replace_line p b sk s) = true.
Proof.
  revert b sk; induction s as [|c t IH]; intros b sk; simpl; [reflexivity|].
  destruct (LineTerminator c) eqn:Hc.
  - simpl. rewrite Hc, IH, (startsWith_terminator c _ Hc), andb_false_r.
    reflexivity.
  - assert (Hskip : clean p b (replace_line p false true t) = true).
    { apply clean_strengthen; [apply startsWith_skipped | apply IH]. }
    destruct sk; [exact Hskip|].
    destruct (b && _) eqn:Hm; [exact Hskip|].
    simpl. rewrite Hc, IH, andb_true_r.
    change (negb (b && startsWith p (c :: replace_line p false false t)) = true).
    rewrite startsWith_cons_replace, Hm; reflexivity.
Qed.

(** A scan with another pattern [q] keeps a text clean for [p]. *)
Lemma replace_line_keeps_clean q b bol sk s :
  clean p b s = true -> clean p b (replace_line q bol sk s) = true.
Proof.
  revert b bol sk; induction s as [|c t IH]; intros b bol sk; simpl; [auto|].
  rewrite andb_true_iff; intros [Hm Ht].
  destruct (LineTerminator c) eqn:Hc.
  - simpl. rewrite Hc, (IH _ _ _ Ht), (startsWith_terminator c _ Hc).
    rewrite andb_false_r; reflexivity.
  - assert (Hskip : clean p b (replace_line q false true t) = true).
    { apply clean_strengthen; [apply startsWith_skipped | apply IH, Ht]. }
    destruct sk; [exact Hskip|].
    destruct (bol && _); [exact Hskip|].
    simpl. rewrite Hc, (IH _ _ _ Ht), andb_true_r.
    change (negb (b && startsWith p (c :: replace_line q false false t)) = true).
    rewrite startsWith_cons_replace. exact Hm.
Qed.

(** On a clean text the scan changes nothing. *)
Lemma replace_line_id b s : clean p b s = true -> replace_line p b false s = s.
Proof.
  revert b; induction s as [|c t IH]; intros b; simpl; [auto|].
  rewrite andb_true_iff, negb_true_iff; intros [-> Ht].
  destruct (LineTerminator c); rewrite (IH _ Ht); reflexivity.
Qed.

Lemma clean_app_l b s1 s2 : clean p b (s1 ++ s2) = true -> clean p b s1 = true.
Proof.
  revert b; induction s1 as [|c t IH]; intros b; [reflexivity|].
  change ((c :: t) ++ s2) with (c :: (t ++ s2)). cbn [clean].
  rewrite !andb_true_iff, !negb_true_iff; intros [Hm Ht]; split; [|eauto].
  destruct b; [|reflexivity]. cbn [andb] in *.
  destruct (startsWith p (c :: t)) eqn:E; [|reflexivity].
  apply (startsWith_app _ _ s2) in E. cbn [app] in E. congruence.
Qed.

Lemma clean_app_r b s1 c s2 :
  clean p b (s1 ++ c :: s2) = true -> clean p (LineTerminator c) s2 = true.
Proof.
  revert b; induction s1 as [|d t IH]; intros b; simpl.
  - rewrite andb_true_iff; tauto.
  - rewrite andb_true_iff; intros [_ H]; eauto.
Qed.

Lemma clean_glue b s1 c s2 :
  LineTerminator c = true ->
  clean p b s1 = true -> clean p true s2 = true ->
  clean p b (s1 ++ c :: s2) = true.
Proof.
  intros Hc; revert b; induction s1 as [|d t IH]; intros b H1 H2; simpl.
  - rewrite Hc, H2, (startsWith_terminator c _ Hc), andb_false_r; reflexivity.
  - simpl in H1. apply andb_true_iff in H1 as [Hm Ht].
    rewrite (IH _ Ht H2), andb_true_r.
    change (negb (b && startsWith p ((d :: t) ++ c :: s2)) = true).
    destruct p_literal as [Hn F].
    rewrite startsWith_cut by assumption. exact Hm.
Qed.

Lemma clean_trimStart s : clean p false s = true -> clean p false (trimStart s) = true.
Proof.
  induction s as [|c t IH]; simpl; [auto|].
  destruct (isTrimmed c); [|auto].
  intros H; apply IH; eapply clean_weaken; exact H.
Qed.

Lemma clean_trimEnd b s : clean p b s = true -> clean p b (trimEnd s) = true.
Proof.
  destruct (JSFacts.trimEnd_prefix s) as [w Hw].
  intros H; rewrite Hw in H; eapply clean_app_l; exact H.
Qed.

Lemma clean_trim b s : clean p b s = true -> clean p false (trim s) = true.
Proof.
  intros H; unfold trim.
  apply clean_trimEnd, clean_trimStart. eapply clean_weaken; exact H.
Qed.

End Scan.

(** ** Facts about [split], [join] and [replace_crlf] *)

Module Lines.

Lemma split_nonempty d s : split d s <> [].
Proof.
  induction s as [|c t IH]; simpl; [discriminate|].
  destruct (c =? d); [discriminate|].
  destruct (split d t); [congruence | discriminate].
Qed.

Lemma join_cons sep l l' ls :
  join sep (l :: l' :: ls) = l ++ sep ++ join sep (l' :: ls).
Proof. reflexivity. Qed.

Lemma join_split d s : join [d] (split d s) = s.
Proof.
  induction s as [|c t IH]; simpl; [reflexivity|].
  destruct (N.eqb_spec c d) as [->|Hn].
  - pose proof (split_nonempty d t) as Hne.
    destruct (split d t) as [|l ls]; [congruence|].
    rewrite join_cons, IH; reflexivity.
  - destruct (split d t) as [|l ls] eqn:E; [exfalso; eapply split_nonempty; eauto|].
    destruct ls as [|l' ls]; simpl in *; congruence.
Qed.

Lemma split_no_sep d s : Forall (fun l => ~ In d l) (split d s).
Proof.
  induction s as [|c t IH]; simpl.
  - repeat constructor; auto.
  - destruct (N.eqb_spec c d) as [->|Hn].
    + constructor; auto.
    + destruct (split d t) as [|l ls]; [repeat constructor; simpl; intuition|].
      inversion IH; subst. constructor; [|assumption].
      simpl; intros [H|H]; auto.
Qed.

Lemma split_single d l : ~ In d l -> split d l = [l].
Proof.
  induction l as [|c t IH]; simpl; [reflexivity|].
  intros H. destruct (N.eqb_spec c d) as [->|Hn]; [tauto|].
  rewrite IH by tauto; reflexivity.
Qed.

Lemma split_app d l r : ~ In d l -> split d (l ++ d :: r) = l :: split d r.
Proof.
  induction l as [|c t IH]; simpl; intros H.
  - rewrite N.eqb_refl; reflexivity.
  - destruct (N.eqb_spec c d) as [->|Hn]; [tauto|].
    rewrite IH by tauto; reflexivity.
Qed.

Lemma split_join d ls :
  ls <> [] -> Forall (fun l => ~ In d l) ls -> split d (join [d] ls) = ls.
Proof.
  induction ls as [|l ls IH]; [congruence|].
  intros _ F; inversion F; subst.
  destruct ls as [|l' ls]; [apply split_single; assumption|].
  rewrite join_cons. change ([d] ++ ?x) with (d :: x).
  rewrite split_app by assumption. f_equal. apply IH; [discriminate | assumption].
Qed.

Lemma replace_crlf_cons c d t :
  replace_crlf (c :: d :: t) =
  if (c =? 13) && (d =? 10) then 10 :: replace_crlf t
  else c :: replace_crlf (d :: t).
Proof. reflexivity. Qed.

Lemma no_crlf_cons c d t :
  no_crlf (c :: d :: t) = negb ((c =? 13) && (d =? 10)) && no_crlf (d :: t).
Proof. reflexivity. Qed.

Lemma replace_crlf_id s : no_crlf s = true -> replace_crlf s = s.
Proof.
  induction s as [|c t IH]; [reflexivity|].
  destruct t as [|d t']; [reflexivity|].
  rewrite no_crlf_cons, replace_crlf_cons, andb_true_iff, negb_true_iff.
  intros [-> H]. rewrite IH by exact H. reflexivity.
Qed.

Lemma no_sep_no_crlf s : ~ In 10 s -> no_crlf s = true.
Proof.
  induction s as [|c t IH]; [reflexivity|].
  destruct t as [|d t']; [reflexivity|].
  intros H. rewrite no_crlf_cons, IH by (simpl in *; tauto).
  destruct (N.eqb_spec d 10) as [->|Hn]; [simpl in H; tauto|].
  rewrite andb_false_r; reflexivity.
Qed.

Lemma trimEnd_tail c t : t <> [] -> trimEnd (c :: t) = c :: t -> trimEnd t = t.
Proof.
  intros Hn; simpl. destruct (trimEnd t) eqn:E; [|congruence].
  destruct (isTrimmed c); congruence.
Qed.

Lemma no_crlf_app a b :
  trimEnd a = a -> no_crlf a = true -> no_crlf b = true -> no_crlf (a ++ b) = true.
Proof.
  induction a as [|c a IH]; [auto|].
  intros Ht Ha Hb. destruct a as [|d a'].
  - simpl in Ht. destruct (isTrimmed c) eqn:Hc; [discriminate|].
    destruct b as [|d b']; [reflexivity|].
    cbn [app]. rewrite no_crlf_cons, Hb, andb_true_r.
    destruct (N.eqb_spec c 13) as [->|Hn]; [discriminate | reflexivity].
  - change ((c :: d :: a') ++ b) with (c :: d :: (a' ++ b)).
    rewrite no_crlf_cons in *.
    apply andb_true_iff in Ha as [H1 H2]. rewrite H1.
    change (d :: a' ++ b) with ((d :: a') ++ b). rewrite IH; auto.
    apply (trimEnd_tail c); [discriminate | exact Ht].
Qed.

End Lines.

(* ================================================================== *)
(** ** The formatter: its output lines *)
(* ================================================================== *)

Lemma preamble_literal p : In p preamble -> literal p.
Proof.
  intros [<-|[<-|[<-|[]]]]; (split; [discriminate|]); vm_compute;
    repeat constructor.
Qed.

Lemma hasMarker_head c t : hasMarker (c :: t) = true -> markerHead c = true.
Proof.
  unfold hasMarker, markerHead; simpl.
  destruct (isDigit c); simpl; auto.
Qed.

(** No preamble pattern starts with a unit that can start a marker. *)
Lemma preamble_not_marker p c t :
  In p preamble -> markerHead c = true -> startsWith p (c :: t) = false.
Proof.
  unfold markerHead, isDigit.
  rewrite !orb_true_iff, andb_true_iff, !N.leb_le, !N.eqb_eq.
  intros [<-|[<-|[<-|[]]]] H; cbn [js map list_ascii_of_string startsWith];
    match goal with
    | |- (?a =? c) && _ = false =>
        let v := eval vm_compute in a in
        change a with v; destruct (N.eqb_spec v c); [lia | reflexivity]
    end.
Qed.

Lemma truthy_formatLine l : truthy (formatLine l) = nonBlank l.
Proof.
  unfold formatLine, nonBlank. destruct (trim l) as [|c t]; [reflexivity|].
  destruct (negb (hasMarker (c :: t))); reflexivity.
Qed.

Lemma formatLine_plain l :
  nonBlank l = true -> hasMarker (trim l) = false ->
  formatLine l = js "- " ++ trim l.
Proof.
  unfold formatLine, nonBlank. destruct (trim l) as [|c t]; [discriminate|].
  intros _ ->; reflexivity.
Qed.

(** Every line that the [map] callback returns is empty or well formed. *)
Lemma formatLine_formatted l :
  ~ In 10 l -> (forall p, In p preamble -> clean p false l = true) ->
  formatLine l = [] \/ formatted_line (formatLine l).
Proof.
  intros Hnl Hcl. unfold formatLine.
  destruct (trim l) as [|c t] eqn:E; [left; reflexivity|right].
  destruct (JSFacts.trim_cons_inv _ _ _ E) as [Hc He].
  assert (Hin : ~ In 10 (c :: t)).
  { intros H; apply Hnl, JSFacts.trim_sub; rewrite E; exact H. }
  assert (Hcl' : forall p, In p preamble -> clean p false (c :: t) = true).
  { intros p Hp; rewrite <- E.
    eapply clean_trim; apply Hcl, Hp. }
  destruct (hasMarker (c :: t)) eqn:M; cbn [negb].
  - repeat split; auto; try discriminate.
    + apply JSFacts.trim_fixed; assumption.
    + intros p Hp. apply clean_strengthen; [|auto].
      apply preamble_not_marker; [exact Hp | eapply hasMarker_head; exact M].
  - change (js "- " ++ c :: t) with (45 :: 32 :: c :: t).
    repeat split; try discriminate.
    + apply JSFacts.trim_fixed; [reflexivity|].
      change (45 :: 32 :: c :: t) with ([45; 32] ++ c :: t).
      rewrite JSFacts.trimEnd_app; rewrite He; [reflexivity | discriminate].
    + intros [H|[H|H]]; [discriminate H | discriminate H | auto].
    + intros p Hp. apply clean_strengthen.
      * apply preamble_not_marker; [exact Hp | reflexivity].
      * apply (Hcl' p Hp).
Qed.

Lemma stripPreamble_clean s p :
  In p preamble -> clean p false (stripPreamble s) = true.
Proof.
  unfold stripPreamble, replace_gm.
  assert (L1 : literal (js "#")) by (apply preamble_literal; simpl; auto).
  assert (L2 : literal (js "Introduction")) by (apply preamble_literal; simpl; auto).
  assert (L3 : literal (js "Summary")) by (apply preamble_literal; simpl; auto).
  intros [<-|[<-|[<-|[]]]].
  - eapply clean_trim, replace_line_keeps_clean; auto.
    eapply clean_trim, replace_line_keeps_clean; auto.
    eapply clean_trim, replace_line_clean; auto.
  - eapply clean_trim, replace_line_keeps_clean; auto.
    eapply clean_trim, replace_line_clean; auto.
  - eapply clean_trim, replace_line_clean; auto.
Qed.

(** A clean text splits into clean lines. *)
Lemma clean_join_inv p l ls b :
  literal p -> clean p b (join nl (l :: ls)) = true ->
  Forall (fun x => clean p false x = true) (l :: ls).
Proof.
  intros Lp; revert l b; induction ls as [|l' ls IH]; intros l b H.
  - constructor; [|constructor]. eapply clean_weaken; exact H.
  - rewrite Lines.join_cons in H. change (nl ++ ?x) with (10 :: x) in H.
    constructor.
    + eapply clean_weaken, clean_app_l; exact H.
    + eapply IH, clean_app_r; exact H.
Qed.

Lemma split_clean p s :
  literal p -> clean p false s = true ->
  Forall (fun x => clean p false x = true) (split 10 s).
Proof.
  intros Lp H. rewrite <- (Lines.join_split 10 s) in H.
  pose proof (Lines.split_nonempty 10 s) as Hne.
  destruct (split 10 s) as [|l ls]; [congruence|].
  eapply clean_join_inv; eauto.
Qed.

Lemma bodyLines_formatted s : Forall formatted_line (bodyLines s).
Proof.
  unfold bodyLines.
  assert (H : Forall (fun l => ~ In 10 l /\
                       forall p, In p preamble -> clean p false l = true)
                (split 10 (stripPreamble s))).
  { rewrite Forall_forall; intros l Hl; split.
    - pose proof (Lines.split_no_sep 10 (stripPreamble s)) as F.
      rewrite Forall_forall in F; auto.
    - intros p Hp.
      pose proof (split_clean p (stripPreamble s) (preamble_literal p Hp)
                    (stripPreamble_clean s p Hp)) as F.
      rewrite Forall_forall in F; auto. }
  induction H as [|l ls [H1 H2] _ IH]; simpl; [constructor|].
  destruct (formatLine_formatted l H1 H2) as [E|G].
  - rewrite E; exact IH.
  - destruct G as [Hn G']. destruct (formatLine l) eqn:E; [congruence|].
    simpl. constructor; [split; auto; discriminate | exact IH].
Qed.

(* ================================================================== *)
(** ** The formatter run on its own output *)
(* ================================================================== *)

Lemma replace_line_skip p b h rest :
  Forall (fun c => LineTerminator c = false) h ->
  replace_line p b true (h ++ 10 :: rest) = 10 :: replace_line p true false rest.
Proof.
  intros F; revert b; induction F as [|c h Hc _ IH]; intros b; simpl.
  - reflexivity.
  - rewrite Hc. apply IH.
Qed.

Lemma replace_line_match p h rest :
  literal p -> startsWith p h = true ->
  Forall (fun c => LineTerminator c = false) h ->
  replace_line p true false (h ++ 10 :: rest)
  = 10 :: replace_line p true false rest.
Proof.
  intros Lp Hs F. destruct h as [|c h].
  - rewrite (startsWith_nil p Lp) in Hs; discriminate.
  - inversion F as [|? ? Hc F']; subst.
    apply (startsWith_app _ _ (10 :: rest)) in Hs.
    cbn [app replace_line] in *. rewrite Hc.
    cbn [andb]. rewrite Hs. apply replace_line_skip; exact F'.
Qed.

Lemma title_shape k :
  startsWith (js "#") (title k) = true /\
  Forall (fun c => LineTerminator c = false) (title k) /\
  trim (title k) = title k /\
  no_crlf (title k) = true /\
  ~ In 10 (title k).
Proof.
  destruct k; (split; [reflexivity|]); (split; [vm_compute; repeat constructor|]);
    (split; [reflexivity|]); (split; [reflexivity|]);
    vm_compute; intuition discriminate.
Qed.

(** *** A joined, non-empty list of output lines *)

Lemma joined_split os :
  Forall formatted_line os -> os <> [] -> split 10 (join nl os) = os.
Proof.
  intros F Hne. apply Lines.split_join; [exact Hne|].
  eapply Forall_impl; [|exact F]. intros o H; apply H.
Qed.

Lemma joined_shape o l :
  Forall formatted_line (o :: l) ->
  exists c t, join nl (o :: l) = c :: t /\ isTrimmed c = false /\
              trimEnd (join nl (o :: l)) = join nl (o :: l).
Proof.
  revert o; induction l as [|o' l IH]; intros o F;
    inversion F as [|? ? Ho F']; subst.
  - destruct Ho as (Hn & Ht & _). destruct o as [|c t]; [congruence|].
    destruct (JSFacts.trim_cons_inv _ _ _ Ht) as [Hc He].
    exists c, t; simpl; auto.
  - destruct (IH o' F') as (c' & t' & E & Hc' & He').
    destruct Ho as (Hn & Ht & _). destruct o as [|c t]; [congruence|].
    destruct (JSFacts.trim_cons_inv _ _ _ Ht) as [Hc _].
    rewrite Lines.join_cons. change (nl ++ ?x) with ([10] ++ x).
    exists c, (t ++ [10] ++ join nl (o' :: l)). split; [reflexivity|].
    split; [exact Hc|].
    rewrite !app_assoc. rewrite JSFacts.trimEnd_app; rewrite He'; [reflexivity|].
    rewrite E; discriminate.
Qed.

Lemma joined_clean p o l :
  Forall formatted_line (o :: l) -> In p preamble ->
  clean p true (join nl (o :: l)) = true.
Proof.
  intros F Hp; revert o F; induction l as [|o' l IH]; intros o F;
    inversion F as [|? ? Ho F']; subst.
  - apply Ho, Hp.
  - rewrite Lines.join_cons. change (nl ++ ?x) with (10 :: x).
    apply clean_glue; [apply preamble_literal, Hp | reflexivity | apply Ho, Hp
                      | apply IH, F'].
Qed.

Lemma joined_no_crlf o l :
  Forall formatted_line (o :: l) -> no_crlf (join nl (o :: l)) = true.
Proof.
  revert o; induction l as [|o' l IH]; intros o F;
    inversion F as [|? ? Ho F']; subst.
  - apply Lines.no_sep_no_crlf, Ho.
  - rewrite Lines.join_cons. change (nl ++ ?x) with (10 :: x).
    destruct Ho as (Hn & Ht & _ & Hs & _).
    apply Lines.no_crlf_app.
    + destruct o as [|c t]; [congruence|].
      apply (JSFacts.trim_cons_inv _ _ _ Ht).
    + apply Lines.no_sep_no_crlf, Hs.
    + specialize (IH o' F').
      destruct (join nl (o' :: l)) as [|d r]; [reflexivity|].
      rewrite Lines.no_crlf_cons. exact IH.
Qed.

Section SecondRun.

Variables (o : jsstring) (l : list jsstring).
Hypothesis os_formatted : Forall formatted_line (o :: l).

(** The preamble stage of a second run removes the heading and nothing
    else. *)
Lemma stripPreamble_formatted k :
  stripPreamble (heading k ++ join nl (o :: l)) = join nl (o :: l).
Proof.
  destruct (joined_shape o l os_formatted) as (c & t & E & Hc & He).
  pose proof (joined_no_crlf o l os_formatted) as Hcrlf.
  pose proof (fun p => joined_clean p o l os_formatted) as Hclean.
  destruct (title_shape k) as (Hs & Hlt & Htr & Hcr & Hnl).
  set (B := join nl (o :: l)) in *.
  assert (Tb : trim B = B).
  { rewrite E in *. apply JSFacts.trim_fixed; assumption. }
  assert (E1 : trim (heading k ++ B) = heading k ++ B).
  { unfold heading. destruct (title k) as [|h r] eqn:Et; [discriminate Hs|].
    destruct (JSFacts.trim_cons_inv _ _ _ Htr) as [Hh _].
    cbn [app]. apply JSFacts.trim_fixed; [exact Hh|].
    change (h :: (r ++ nl ++ nl) ++ B) with (((h :: r) ++ nl ++ nl) ++ B).
    rewrite JSFacts.trimEnd_app; rewrite He; [reflexivity|].
    rewrite E; discriminate. }
  assert (E2 : replace_crlf (heading k ++ B) = heading k ++ B).
  { apply Lines.replace_crlf_id. unfold heading. rewrite <- app_assoc.
    apply Lines.no_crlf_app; [|exact Hcr|].
    - destruct (title k) as [|h r]; [discriminate Hs|].
      apply (JSFacts.trim_cons_inv _ _ _ Htr).
    - change ((nl ++ nl) ++ B) with (10 :: 10 :: B).
      rewrite E. change (no_crlf (c :: t) = true).
      rewrite <- E. exact Hcrlf. }
  assert (E3 : replace_gm (js "#") (heading k ++ B) = 10 :: 10 :: B).
  { unfold replace_gm, heading. rewrite <- app_assoc.
    change ((nl ++ nl) ++ B) with (10 :: 10 :: B).
    rewrite replace_line_match;
      [|apply preamble_literal; simpl; auto | exact Hs | exact Hlt].
    f_equal.
    change (replace_line (js "#") true false (10 :: B))
      with (10 :: replace_line (js "#") true false B).
    f_equal. apply replace_line_id, Hclean; simpl; auto. }
  assert (E4 : trim (10 :: 10 :: B) = B).
  { unfold trim. change (trimStart (10 :: 10 :: B)) with (trimStart B).
    exact Tb. }
  unfold stripPreamble. rewrite E1, E2, E3, E4.
  unfold replace_gm.
  rewrite (replace_line_id (js "Introduction")), Tb
    by (apply Hclean; simpl; auto).
  rewrite (replace_line_id (js "Summary")), Tb
    by (apply Hclean; simpl; auto).
  reflexivity.
Qed.

End SecondRun.

(** The line stage of a second run leaves every line as it is. *)
Lemma formatLine_formatted_id os :
  Forall formatted_line os -> map formatLine os = os.
Proof.
  induction 1 as [|o l Ho _ IH]; [reflexivity|].
  simpl; rewrite IH; f_equal.
  destruct Ho as (Hn & Ht & Hm & _).
  unfold formatLine. rewrite Ht. destruct o; [congruence|].
  rewrite Hm; reflexivity.
Qed.

Lemma truthy_formatted os : Forall formatted_line os -> filter truthy os = os.
Proof.
  induction 1 as [|o l Ho _ IH]; [reflexivity|].
  simpl. destruct Ho as (Hn & _). destruct o; [congruence|].
  simpl; rewrite IH; reflexivity.
Qed.

Lemma bodyLines_formatted_id o l k :
  Forall formatted_line (o :: l) ->
  bodyLines (heading k ++ join nl (o :: l)) = o :: l.
Proof.
  intros F. unfold bodyLines.
  rewrite stripPreamble_formatted by exact F.
  rewrite joined_split by (auto; discriminate).
  rewrite formatLine_formatted_id by exact F.
  apply truthy_formatted, F.
Qed.

Lemma bodyLines_heading k : bodyLines (heading k) = [].
Proof. destruct k; reflexivity. Qed.

Lemma bodyLines_twice s k :
  bodyLines (validateAndFormatResponse s k) = bodyLines s.
Proof.
  unfold validateAndFormatResponse, body.
  destruct (bodyLines s) as [|o l] eqn:E.
  - simpl. rewrite app_nil_r. apply bodyLines_heading.
  - apply bodyLines_formatted_id.
    rewrite <- E; apply bodyLines_formatted.
Qed.

(* ================================================================== *)
(** ** Properties of the formatter *)
(* ================================================================== *)

(** C5.  Formatting the formatter's own output keeps the body: the heading
    is removed as a [#] line and put back, and every body line, which
    already starts with a numbered or bullet marker, is left as it is.  So
    the body of the second run is the body of the first, and the whole
    output is unchanged. *)
Theorem format_twice_keeps_body (s : jsstring) (k : AssistantType) :
  body (validateAndFormatResponse s k) = body s /\
  Forall (fun line => hasMarker line = true) (bodyLines s) /\
  validateAndFormatResponse (validateAndFormatResponse s k) k
  = validateAndFormatResponse s k.
Proof.
  assert (E : body (validateAndFormatResponse s k) = body s).
  { unfold body. rewrite bodyLines_twice. reflexivity. }
  split; [exact E|]. split.
  - eapply Forall_impl; [|apply bodyLines_formatted]. intros o H; apply H.
  - unfold validateAndFormatResponse at 1. rewrite E. reflexivity.
Qed.

(** C8.  The second end-to-end scenario: the three-line input "Point one",
    "2. Point two", "- Point three" formats for INSIGHTS to the heading, a
    blank line, and "- Point one", "2. Point two", "- Point three". *)
Theorem format_scenario_insights :
  validateAndFormatResponse
    (js "Point one" ++ nl ++ js "2. Point two" ++ nl ++ js "- Point three")
    INSIGHTS
  = js "## Key Research Insights" ++ nl ++ nl ++
    js "- Point one" ++ nl ++ js "2. Point two" ++ nl ++ js "- Point three".
Proof. vm_compute. reflexivity. Qed.

Lemma bodyLines_surviving s : bodyLines s = map formatLine (surviving s).
Proof.
  unfold bodyLines, surviving.
  induction (split 10 (stripPreamble s)) as [|l ls IH]; [reflexivity|].
  simpl. rewrite truthy_formatLine, IH.
  destruct (nonBlank l); reflexivity.
Qed.

(** The output is the heading line, an empty line, and the body lines. *)
Lemma outputLines_shape s k :
  bodyLines s <> [] -> outputLines s k = title k :: [] :: bodyLines s.
Proof.
  intros Hne. unfold outputLines, validateAndFormatResponse, heading, body.
  destruct (title_shape k) as (_ & _ & _ & _ & Hnl).
  rewrite <- app_assoc. change ((nl ++ nl) ++ ?x) with (10 :: 10 :: x).
  rewrite Lines.split_app by exact Hnl. f_equal.
  change (10 :: ?x) with ([] ++ 10 :: x).
  rewrite Lines.split_app by (simpl; tauto). f_equal.
  apply joined_split; [apply bodyLines_formatted | exact Hne].
Qed.

(** C9, as the code has it.  The [i]-th non-blank line left by the preamble
    stage, when its trimmed text starts with no numbered or bullet marker,
    is output line [i] of the body (line [i + 2] of the result) as ["- "]
    followed by the trimmed line. *)
Theorem plain_line_gets_bullet (s : jsstring) (k : AssistantType) (i : nat)
  (line : jsstring) :
  nth_error (surviving s) i = Some line ->
  hasMarker (trim line) = false ->
  nth_error (outputLines s k) (S (S i)) = Some (js "- " ++ trim line).
Proof.
  intros Hi Hm.
  assert (Hb : nth_error (bodyLines s) i = Some (formatLine line)).
  { rewrite bodyLines_surviving. apply map_nth_error, Hi. }
  rewrite outputLines_shape.
  - cbn [nth_error]. rewrite Hb. f_equal. apply formatLine_plain; [|exact Hm].
    apply nth_error_In in Hi. unfold surviving in Hi.
    apply filter_In in Hi. apply Hi.
  - intros E; rewrite E in Hb. destruct i; discriminate.
Qed.

Lemma plain_line_gets_bullet_witness :
  nth_error (outputLines (js "a" ++ nl ++ js "  b c  " ++ nl ++ js "d") INSIGHTS) 3
  = Some (js "- b c").
Proof.
  apply (plain_line_gets_bullet _ INSIGHTS 1%nat (js "  b c  ")); reflexivity.
Defined.

(** C9, as the claim words it (the line itself tested and kept), fails on a
    line with leading white space: the output line is built from the
    trimmed line. *)
Lemma plain_line_untrimmed_counterexample :
  ~ (forall s k i line,
       nth_error (surviving s) i = Some line ->
       hasMarker line = false ->
       nth_error (outputLines s k) (S (S i)) = Some (js "- " ++ line)).
Proof.
  intros H.
  specialize (H (js "a" ++ nl ++ js "  b c  " ++ nl ++ js "d") INSIGHTS
                1%nat (js "  b c  ") eq_refl eq_refl).
  vm_compute in H. discriminate H.
Qed.

(* ================================================================== *)
(** ** Properties of the component: file selection and upload *)
(* ================================================================== *)

Lemma get_set_same k v r : get k (set k v r) = v.
Proof. destruct k; reflexivity. Qed.

Lemma get_set_other k k' v r : k <> k' -> get k (set k' v r) = get k r.
Proof. destruct k, k'; try reflexivity; congruence. Qed.

Lemma get_initialResults k : get k initialResults = mkResult k [] Status.idle None.
Proof. destruct k; reflexivity. Qed.

Lemma run_reachable s evs s' : reachable s -> run s evs = Some s' -> reachable s'.
Proof.
  revert s; induction evs as [|ev evs IH]; simpl; intros s R H.
  - injection H as <-; exact R.
  - destruct (step s ev) as [s1|] eqn:E; [|discriminate].
    eapply IH; [|exact H]. eapply reachable_step; eauto.
Qed.

(** C7.  Selecting a file whose declared type is not exactly
    application/pdf leaves no file stored, puts INSIGHTS in status error
    with the message "Please upload a PDF file", and leaves ACHIEVEMENTS and
    RESEARCH_IDEAS idle with empty content. *)
Theorem non_pdf_selection (s : State) (selectedFile : File.t)
  (others : list File.t) :
  File.type selectedFile <> js "application/pdf" ->
  exists s',
    step s (change (selectedFile :: others)) = Some s' /\
    file s' = None /\
    get INSIGHTS (results s')
    = mkResult INSIGHTS [] Status.error (Some (js "Please upload a PDF file")) /\
    get ACHIEVEMENTS (results s') = mkResult ACHIEVEMENTS [] Status.idle None /\
    get RESEARCH_IDEAS (results s') = mkResult RESEARCH_IDEAS [] Status.idle None.
Proof.
  intros H. apply JSFacts.eqb_neq in H.
  eexists; split; [reflexivity|].
  unfold handleFileChange. rewrite H. repeat split.
Qed.

Lemma non_pdf_selection_witness :
  exists s',
    step init (change [notes]) = Some s' /\
    file s' = None /\
    get INSIGHTS (results s')
    = mkResult INSIGHTS [] Status.error (Some (js "Please upload a PDF file")) /\
    get ACHIEVEMENTS (results s') = mkResult ACHIEVEMENTS [] Status.idle None /\
    get RESEARCH_IDEAS (results s') = mkResult RESEARCH_IDEAS [] Status.idle None.
Proof.
  apply (non_pdf_selection init notes []). vm_compute. discriminate.
Defined.

(** C10.  Selecting a file whose declared type is exactly application/pdf
    stores it and resets the three results to their initial value (idle,
    empty content, no error), whatever an earlier analysis left there. *)
Theorem pdf_selection_resets (s : State) (selectedFile : File.t)
  (others : list File.t) :
  File.type selectedFile = js "application/pdf" ->
  exists s',
    step s (change (selectedFile :: others)) = Some s' /\
    file s' = Some selectedFile /\
    results s' = initialResults /\
    forall k, get k (results s') = mkResult k [] Status.idle None.
Proof.
  intros H. apply JSFacts.eqb_eq in H.
  eexists; split; [reflexivity|].
  unfold handleFileChange. rewrite H. repeat split.
  apply get_initialResults.
Qed.

Lemma pdf_selection_resets_witness :
  exists s',
    step left_over (change [paper]) = Some s' /\
    file s' = Some paper /\
    results s' = initialResults /\
    forall k, get k (results s') = mkResult k [] Status.idle None.
Proof.
  apply (pdf_selection_resets left_over paper []). reflexivity.
Defined.

Lemma nth_error_snoc {A} (l : list A) x : nth_error (l ++ [x]) (List.length l) = Some x.
Proof. induction l; simpl; auto. Qed.

Lemma remove_nth_snoc {A} (l : list A) x : remove_nth (List.length l) (l ++ [x]) = l.
Proof. induction l; simpl; congruence. Qed.

Lemma get_setAllError k m r :
  get k (setAllError m r)
  = mkResult (type (get k r)) (content (get k r)) Status.error (Some m).
Proof. destruct k; reflexivity. Qed.

Lemma someLoading_false r k :
  someLoading r = false -> status (get k r) <> Status.loading.
Proof.
  unfold someLoading; simpl. rewrite !orb_false_iff.
  intros (H1 & H2 & H3 & _) E.
  destruct k; simpl in E; rewrite E in *; discriminate.
Qed.

(** C6.  When the upload of an analysis rejects, no job is started: the
    click and the rejection leave no kind loading, the pending activities
    are those from before the click, and the three kinds end in status error
    with one same message, that of the failure. *)
Theorem upload_failure_marks_all (s : State) (err : thrown) :
  buttonEnabled s = true ->
  exists s1 s2,
    step s click = Some s1 /\
    step s1 (settled (List.length (pending s)) (Rejected err)) = Some s2 /\
    (forall k, status (get k (results s1)) <> Status.loading) /\
    (forall k, status (get k (results s2)) = Status.error /\
               error (get k (results s2))
               = Some (messageOf err (js "Upload failed"))) /\
    pending s2 = pending s.
Proof.
  intros Hb. unfold step. rewrite Hb.
  unfold buttonEnabled in Hb. unfold handleUpload.
  destruct (file s) as [f|] eqn:Ef; [|discriminate].
  apply negb_true_iff in Hb.
  eexists; eexists. split; [reflexivity|].
  unfold settle; cbn [pending results file].
  rewrite nth_error_snoc, remove_nth_snoc.
  split; [reflexivity|]. cbn [pending results].
  split; [intros k; apply someLoading_false, Hb|].
  split; [|reflexivity].
  intros k. rewrite get_setAllError. split; reflexivity.
Qed.

Lemma upload_failure_marks_all_witness :
  exists s1 s2,
    step selected click = Some s1 /\
    step s1 (settled 0 (Rejected (ErrorObject (js "Network down")))) = Some s2 /\
    (forall k, status (get k (results s1)) <> Status.loading) /\
    (forall k, status (get k (results s2)) = Status.error /\
               error (get k (results s2)) = Some (js "Network down")) /\
    pending s2 = [].
Proof.
  apply (upload_failure_marks_all selected (ErrorObject (js "Network down"))).
  reflexivity.
Defined.

(* ================================================================== *)
(** ** Properties of the component: one job *)
(* ================================================================== *)

Lemma get_setError_same k m r :
  get k (setError k m r)
  = mkResult (type (get k r)) (content (get k r)) Status.error (Some m).
Proof. unfold setError; apply get_set_same. Qed.

Lemma get_setError_other k k' m r : k <> k' -> get k (setError k' m r) = get k r.
Proof. unfold setError; apply get_set_other. Qed.

Lemma get_setComplete_other k k' c r :
  k <> k' -> get k (setComplete k' c r) = get k r.
Proof. unfold setComplete; apply get_set_other. Qed.

(** A run reported failed by a retrieval inside the polling loop ends the
    job in status error with the failure message, and touches no other
    kind. *)
Lemma failed_poll_reports_error s i k :
  nth_error (pending s) i = Some (job k runs_retrieve_poll) ->
  exists s',
    settle i (ResolvedRun (js "failed")) s = Some s' /\
    status (get k (results s')) = Status.error /\
    error (get k (results s')) = Some (js "Analysis failed for " ++ typeName k) /\
    forall k', k' <> k -> get k' (results s') = get k' (results s).
Proof.
  intros H. unfold settle. rewrite H. cbn.
  eexists; split; [reflexivity|]. cbn [results].
  rewrite get_setError_same. repeat split.
  intros k' Hk. apply get_setError_other, Hk.
Qed.

(** C3, at the input on which the code departs from it.  A status "failed"
    returned by the first retrieval does not enter the loop, whose body holds
    the only test for "failed": the job goes on to list the messages, and
    with an assistant message in the thread ACHIEVEMENTS ends complete. *)
Theorem failed_first_retrieval_not_detected :
  (forall k, resume k runs_retrieve_first (ResolvedRun (js "failed"))
             = Some (Continue messages_list)) /\
  exists s,
    run init failed_at_first_retrieval = Some s /\
    get ACHIEVEMENTS (results s)
    = mkResult ACHIEVEMENTS
        (js "## Notable Achievements" ++ nl ++ nl ++ js "- Partial answer")
        Status.complete None.
Proof.
  split; [intros k; reflexivity|].
  eexists; split; vm_compute; reflexivity.
Qed.

Lemma trim_blank s : Forall (fun c => isTrimmed c = true) s -> trim s = [].
Proof.
  unfold trim. induction 1 as [|c t Hc _ IH]; [reflexivity|].
  simpl. rewrite Hc. exact IH.
Qed.

Lemma join_no_text items :
  forallb (fun i => negb (textBearing i)) items = true ->
  Forall (fun c => isTrimmed c = true) (join (nl ++ nl) (map itemText items)).
Proof.
  induction items as [|it items IH]; [constructor|].
  cbn [forallb map]. rewrite andb_true_iff, negb_true_iff. intros [Hi Ht].
  assert (E : itemText it = []).
  { destruct it as [[[|c v]|]|]; try reflexivity; discriminate Hi. }
  rewrite E. specialize (IH Ht).
  destruct items as [|it' items]; [constructor|].
  cbn [map] in *. rewrite Lines.join_cons.
  repeat (constructor; [reflexivity|]). exact IH.
Qed.

(** A message without a text-bearing segment formats to the bare heading. *)
Lemma format_no_text items k :
  forallb (fun i => negb (textBearing i)) items = true ->
  validateAndFormatResponse (join (nl ++ nl) (map itemText items)) k = heading k.
Proof.
  intros H. unfold validateAndFormatResponse, body, bodyLines, stripPreamble.
  rewrite (trim_blank _ (join_no_text items H)). cbn. apply app_nil_r.
Qed.

(** C4, as the code has it: what the job does with the listing of the
    thread.  The listing settles the job and touches no other kind.  Without an
    assistant message, or when the located message has no content field, the
    kind ends in status error with "No response received for <kind>".
    Otherwise the kind ends complete with the formatted text of the
    segments; when no segment bears text this is the bare heading. *)
Theorem listing_settles_job (s : State) (i : nat) (k : AssistantType)
  (data : list Message.t) :
  nth_error (pending s) i = Some (job k messages_list) ->
  exists s',
    settle i (ResolvedMessages data) s = Some s' /\
    (forall k', k' <> k -> get k' (results s') = get k' (results s)) /\
    ((assistantMessage data = None \/
      exists m, assistantMessage data = Some m /\ Message.content m = None) ->
     status (get k (results s')) = Status.error /\
     error (get k (results s'))
     = Some (js "No response received for " ++ typeName k)) /\
    (forall m items,
       assistantMessage data = Some m -> Message.content m = Some items ->
       get k (results s')
       = mkResult k
           (validateAndFormatResponse (join (nl ++ nl) (map itemText items)) k)
           Status.complete None /\
       (forallb (fun it => negb (textBearing it)) items = true ->
        content (get k (results s')) = heading k)).
Proof.
  intros H. unfold settle. rewrite H. cbn [resume].
  unfold readResponse. fold (assistantMessage data).
  destruct (assistantMessage data) as [[role [items|]]|] eqn:E.
  - eexists; split; [reflexivity|]. cbn [results]. split; [|split].
    + intros k' Hk. apply get_setComplete_other, Hk.
    + intros [Hn|(m & Hm & Hc)]; [discriminate|].
      injection Hm as <-. discriminate Hc.
    + intros m items' Hm Hc. injection Hm as <-. injection Hc as <-.
      unfold setComplete. rewrite get_set_same. split; [reflexivity|].
      intros Hb. cbn [content]. apply format_no_text, Hb.
  - eexists; split; [reflexivity|]. cbn [results messageOf]. split; [|split].
    + intros k' Hk. apply get_setError_other, Hk.
    + intros _. rewrite get_setError_same. split; reflexivity.
    + intros m items Hm Hc. injection Hm as <-. discriminate Hc.
  - eexists; split; [reflexivity|]. cbn [results messageOf]. split; [|split].
    + intros k' Hk. apply get_setError_other, Hk.
    + intros _. rewrite get_setError_same. split; reflexivity.
    + intros m items Hm. discriminate Hm.
Qed.

Lemma listing_settles_job_witness :
  exists s0 s',
    run init listing_insights = Some s0 /\
    settle 0 (ResolvedMessages [question]) s0 = Some s' /\
    status (get INSIGHTS (results s')) = Status.error /\
    error (get INSIGHTS (results s'))
    = Some (js "No response received for INSIGHTS").
Proof.
  eexists. 
  destruct (listing_settles_job
              (mkState (Some paper) (launch ASSISTANTS_keys initialResults)
                 [job INSIGHTS messages_list; job ACHIEVEMENTS threads_create;
                  job RESEARCH_IDEAS threads_create])
              0 INSIGHTS [question] eq_refl)
    as (s' & Hs & _ & He & _).
  exists s'. split; [reflexivity|]. split; [exact Hs|].
  apply He. left; reflexivity.
Defined.

(** C4, as the claim words it, fails: a located assistant message whose only
    segment is not text does not end the kind in status error; the kind ends
    complete with the bare heading. *)
Lemma no_text_segment_counterexample :
  ~ (forall s i k data,
       reachable s ->
       nth_error (pending s) i = Some (job k messages_list) ->
       emptyResponse data ->
       exists s',
         settle i (ResolvedMessages data) s = Some s' /\
         status (get k (results s')) = Status.error).
Proof.
  intros H.
  destruct (run init listing_insights) as [s0|] eqn:E; [|discriminate E].
  assert (R : reachable s0).
  { eapply run_reachable; [apply reachable_init | exact E]. }
  vm_compute in E. injection E as <-.
  destruct (H _ 0%nat INSIGHTS
              [question; Message.mk (js "assistant") (Some [OtherItem])]
              R eq_refl eq_refl) as (s' & Hs & Hst).
  vm_compute in Hs. injection Hs as <-. discriminate Hst.
Qed.

(* ================================================================== *)
(** ** Invariants of the component *)
(* ================================================================== *)

Lemma count_remove_nth f l i t :
  nth_error l i = Some t ->
  count f l = (count f (remove_nth i l) + (if f t then 1 else 0))%nat.
Proof.
  unfold count. revert i; induction l as [|x l IH]; intros [|i]; simpl;
    try discriminate.
  - intros [= ->]. destruct (f t); simpl; lia.
  - intros H. specialize (IH _ H).
    destruct (f x), (f t); simpl in *; lia.
Qed.

Lemma count_replace_nth f l i t y :
  nth_error l i = Some t -> f y = f t ->
  count f (replace_nth i y l) = count f l.
Proof.
  unfold count. revert i; induction l as [|x l IH]; intros [|i]; simpl;
    try discriminate.
  - intros [= ->] ->. destruct (f t); reflexivity.
  - intros H E. specialize (IH _ H E).
    destruct (f x); simpl; congruence.
Qed.

Lemma count_pos f l i t :
  nth_error l i = Some t -> f t = true -> (1 <= count f l)%nat.
Proof.
  intros H E. rewrite (count_remove_nth f l i t H), E. lia.
Qed.

Lemma isJob_same k a : isJob k (job k a) = true.
Proof. destruct k; reflexivity. Qed.

Lemma isJob_other k k' a : k <> k' -> isJob k (job k' a) = false.
Proof. destruct k, k'; try reflexivity; congruence. Qed.

Lemma AssistantType_eq_dec (a b : AssistantType) : {a = b} + {a <> b}.
Proof. decide equality. Qed.

Lemma heading_nonempty k x : heading k ++ x <> [].
Proof. destruct k; discriminate. Qed.

(** A job completes only with a formatted, hence non-empty, content. *)
Lemma resume_complete k a r c : resume k a r = Some (Complete c) -> c <> [].
Proof.
  destruct a, r; cbn; try discriminate; unfold loopTest.
  - destruct (stillRunning _); discriminate.
  - destruct (JS.eqb _ _); [discriminate|].
    destruct (stillRunning _); discriminate.
  - unfold readResponse.
    destruct (find _ data) as [[? [items|]]|]; try discriminate.
    intros [= <-]. apply heading_nonempty.
Qed.

Lemma get_launch k r :
  get k (launch ASSISTANTS_keys r)
  = mkResult (type (get k r)) (content (get k r)) Status.loading (error (get k r)).
Proof. destruct k; reflexivity. Qed.

Lemma sound_loading t c e : sound (mkResult t c Status.loading e).
Proof. repeat split; discriminate. Qed.

Lemma sound_error t c m : sound (mkResult t c Status.error (Some m)).
Proof. repeat split; discriminate. Qed.

Lemma sound_initial k : sound (get k initialResults).
Proof. rewrite get_initialResults. repeat split; discriminate. Qed.

Lemma sound_set k k' v r :
  sound v -> sound (get k r) -> sound (get k (set k' v r)).
Proof.
  intros Hv Hr. destruct (AssistantType_eq_dec k k') as [<-|Hn].
  - rewrite get_set_same; exact Hv.
  - rewrite get_set_other by exact Hn; exact Hr.
Qed.

(** The five ways in which a pending activity settles. *)
Lemma settle_inv s i r s' :
  settle i r s = Some s' ->
  (nth_error (pending s) i = Some upload /\ r = Resolved /\
   s' = mkState (file s) (launch ASSISTANTS_keys (results s))
          (remove_nth i (pending s)
           ++ map (fun k => job k threads_create) ASSISTANTS_keys)) \/
  (exists err,
     nth_error (pending s) i = Some upload /\ r = Rejected err /\
     s' = mkState (file s)
            (setAllError (messageOf err (js "Upload failed")) (results s))
            (remove_nth i (pending s))) \/
  (exists k a a',
     nth_error (pending s) i = Some (job k a) /\
     resume k a r = Some (Continue a') /\
     s' = mkState (file s) (results s) (replace_nth i (job k a') (pending s))) \/
  (exists k a c,
     nth_error (pending s) i = Some (job k a) /\
     resume k a r = Some (Complete c) /\
     s' = mkState (file s) (setComplete k c (results s))
            (remove_nth i (pending s))) \/
  (exists k a err,
     nth_error (pending s) i = Some (job k a) /\
     resume k a r = Some (Throw err) /\
     s' = mkState (file s)
            (setError k (messageOf err (js "Analysis failed")) (results s))
            (remove_nth i (pending s))).
Proof.
  unfold settle.
  destruct (nth_error (pending s) i) as [[|k a]|]; [| |discriminate].
  - destruct r; try discriminate; intros H.
    + left. repeat split. congruence.
    + right; left. exists err. repeat split. congruence.
  - destruct (resume k a r) as [[a'|c|err]|] eqn:E; [| | |discriminate];
      intros H; right; right.
    + left. exists k, a, a'. repeat split; congruence.
    + right; left. exists k, a, c. repeat split; congruence.
    + right; right. exists k, a, err. repeat split; congruence.
Qed.

(** Every step keeps the results [sound]. *)
Lemma step_sound s ev s' :
  (forall k, sound (get k (results s))) -> step s ev = Some s' ->
  forall k, sound (get k (results s')).
Proof.
  intros Hs Hstep k. destruct ev as [files| |i r]; unfold step in Hstep.
  - assert (E : s' = handleFileChange files s) by congruence. subst s'.
    unfold handleFileChange.
    destruct files as [|f ?]; [apply Hs|].
    destruct (JS.eqb _ _); cbn [results].
    + apply sound_initial.
    + apply sound_set; [apply sound_error | apply sound_initial].
  - destruct (buttonEnabled s); [|discriminate].
    assert (E : s' = handleUpload s) by congruence. subst s'.
    unfold handleUpload. destruct (file s); apply Hs.
  - destruct (settle_inv _ _ _ _ Hstep)
      as [(_ & _ & ->)|[(err & _ & _ & ->)|[(k' & a & a' & _ & _ & ->)
         |[(k' & a & c & _ & E & ->)|(k' & a & err & _ & _ & ->)]]]];
      cbn [results].
    + rewrite get_launch. apply sound_loading.
    + rewrite get_setAllError. apply sound_error.
    + apply Hs.
    + apply sound_set; [|apply Hs].
      apply resume_complete in E. repeat split; try discriminate; auto.
    + apply sound_set; [apply sound_error | apply Hs].
Qed.

Lemma reachable_sound s : reachable s -> forall k, sound (get k (results s)).
Proof.
  induction 1 as [|s ev s' _ IH Hstep].
  - apply sound_initial.
  - eapply step_sound; eauto.
Qed.

Lemma consistent_fresh t s :
  s <> Status.complete -> s <> Status.error -> consistent (mkResult t [] s None).
Proof.
  intros H1 H2; split; split; cbn; intros H; congruence.
Qed.

Lemma consistent_complete t c :
  c <> [] -> consistent (mkResult t c Status.complete None).
Proof. intros H; split; split; cbn; intros; congruence. Qed.

Lemma consistent_error t m : consistent (mkResult t [] Status.error (Some m)).
Proof. split; split; cbn; intros; congruence. Qed.

Lemma consistent_initial k : consistent (get k initialResults).
Proof. rewrite get_initialResults. apply consistent_fresh; discriminate. Qed.

(** A consistent record that is loading holds neither content nor error. *)
Lemma consistent_loading r :
  consistent r -> status r = Status.loading -> content r = [] /\ error r = None.
Proof.
  intros [[Hc _] [He _]] Hs. rewrite Hs in *. split.
  - destruct (content r); [reflexivity|].
    assert (Status.loading = Status.complete) by (apply Hc; discriminate).
    discriminate.
  - destruct (error r); [|reflexivity].
    assert (Status.loading = Status.error) by (apply He; discriminate).
    discriminate.
Qed.

Lemma nth_error_singleton {A} (x y : A) i :
  nth_error [x] i = Some y -> i = 0%nat /\ x = y.
Proof.
  destruct i as [|i]; simpl.
  - intros [= ->]; auto.
  - destruct i; discriminate.
Qed.

Ltac no_upload_pending :=
  match goal with
  | H : nth_error ?l ?i = Some upload, C : count isUpload ?l = 0%nat |- _ =>
      pose proof (count_pos isUpload l i upload H eq_refl); lia
  end.

Ltac only_upload_pending :=
  match goal with
  | H : nth_error ?l ?i = Some (job _ _), P : ?l = [upload] |- _ =>
      rewrite P in H; apply nth_error_singleton in H as [_ H]; discriminate H
  end.

(** One settled promise keeps a [steady] state steady, and changes each
    status as [status_change] allows. *)
Lemma steady_settle s i r s' :
  steady s -> settle i r s = Some s' ->
  steady s' /\
  forall k, status_change s (settled i r) k
              (status (get k (results s))) (status (get k (results s'))).
Proof.
  intros [Hc Hp] Hstep.
  destruct (settle_inv _ _ _ _ Hstep)
    as [(Hn & -> & ->)|[(err & Hn & -> & ->)|[(k' & a & a' & Hn & E & ->)
       |[(k' & a & c & Hn & E & ->)|(k' & a & err & Hn & E & ->)]]]];
    (destruct Hp as [[Hp Hr]|[Hu Hj]];
     [try only_upload_pending | try no_upload_pending]);
    unfold steady; cbn [results pending].
  - (* the upload resolves *)
    rewrite Hp in Hn. apply nth_error_singleton in Hn as [-> _].
    rewrite Hp, Hr. split; [split|].
    + intros k; rewrite get_launch, get_initialResults; cbn.
      apply consistent_fresh; discriminate.
    + right. split; [reflexivity|]. intros k; left.
      rewrite get_launch. split; [destruct k|]; reflexivity.
    + intros k. right; left. exists 0%nat.
      rewrite get_launch, get_initialResults.
      repeat split. rewrite Hp; reflexivity.
  - (* the upload rejects *)
    rewrite Hp in Hn. pose proof Hn as Hn'.
    apply nth_error_singleton in Hn' as [-> _].
    rewrite Hp, Hr in *. split; [split|].
    + intros k; rewrite get_setAllError, get_initialResults; cbn.
      apply consistent_error.
    + right. split; [reflexivity|]. intros k; right.
      rewrite get_setAllError. split; [reflexivity | discriminate].
    + intros k. right; right; right; left. exists 0%nat, err.
      rewrite get_setAllError, get_initialResults.
      repeat split. rewrite Hp; reflexivity.
  - (* a job goes on to its next await *)
    split; [split|].
    + exact Hc.
    + right. split.
      * rewrite (count_replace_nth _ _ _ _ _ Hn); [exact Hu | reflexivity].
      * intros k. rewrite (count_replace_nth _ _ _ _ _ Hn); [apply Hj|].
        reflexivity.
    + intros k; left; reflexivity.
  - (* a job completes *)
    assert (Hk : count (isJob k') (pending s) = 1%nat /\
                 status (get k' (results s)) = Status.loading).
    { destruct (Hj k') as [H|[H _]]; [exact H|].
      pose proof (count_pos _ _ _ _ Hn (isJob_same k' a)). lia. }
    destruct Hk as [Hk1 Hk2].
    split; [split|].
    + intros k. destruct (AssistantType_eq_dec k k') as [->|Hne].
      * unfold setComplete; rewrite get_set_same.
        apply consistent_complete. eapply resume_complete; exact E.
      * rewrite get_setComplete_other by exact Hne. apply Hc.
    + right. split.
      * rewrite (count_remove_nth isUpload _ _ _ Hn) in Hu. cbn in Hu. lia.
      * intros k. destruct (AssistantType_eq_dec k k') as [->|Hne].
        -- right. rewrite (count_remove_nth _ _ _ _ Hn), isJob_same in Hk1.
           unfold setComplete; rewrite get_set_same.
           split; [lia | discriminate].
        -- rewrite get_setComplete_other by exact Hne.
           pose proof (count_remove_nth (isJob k) _ _ _ Hn) as Hcnt.
           rewrite (isJob_other _ _ _ Hne) in Hcnt.
           replace (count (isJob k) (remove_nth i (pending s)))
             with (count (isJob k) (pending s)) by lia.
           apply Hj.
    + intros k. destruct (AssistantType_eq_dec k k') as [->|Hne].
      * right; right; left. exists i, r, a.
        unfold setComplete; rewrite get_set_same, Hk2. auto.
      * left. rewrite get_setComplete_other by exact Hne. reflexivity.
  - (* a job throws *)
    assert (Hk : count (isJob k') (pending s) = 1%nat /\
                 status (get k' (results s)) = Status.loading).
    { destruct (Hj k') as [H|[H _]]; [exact H|].
      pose proof (count_pos _ _ _ _ Hn (isJob_same k' a)). lia. }
    destruct Hk as [Hk1 Hk2].
    split; [split|].
    + intros k. destruct (AssistantType_eq_dec k k') as [->|Hne].
      * rewrite get_setError_same.
        destruct (consistent_loading _ (Hc k') Hk2) as [-> _].
        apply consistent_error.
      * rewrite get_setError_other by exact Hne. apply Hc.
    + right. split.
      * rewrite (count_remove_nth isUpload _ _ _ Hn) in Hu. cbn in Hu. lia.
      * intros k. destruct (AssistantType_eq_dec k k') as [->|Hne].
        -- right. rewrite (count_remove_nth _ _ _ _ Hn), isJob_same in Hk1.
           rewrite get_setError_same.
           split; [lia | discriminate].
        -- rewrite get_setError_other by exact Hne.
           pose proof (count_remove_nth (isJob k) _ _ _ Hn) as Hcnt.
           rewrite (isJob_other _ _ _ Hne) in Hcnt.
           replace (count (isJob k) (remove_nth i (pending s)))
             with (count (isJob k) (pending s)) by lia.
           apply Hj.
    + intros k. destruct (AssistantType_eq_dec k k') as [->|Hne].
      * right; right; left. exists i, r, a.
        rewrite get_setError_same, Hk2. auto.
      * left. rewrite get_setError_other by exact Hne. reflexivity.
Qed.

Lemma undisturbed_steady s : undisturbed s -> steady s.
Proof.
  induction 1 as [|s files _ IH Hp|s _ IH Hp Hr Hb|s i r s' _ IH Hstep].
  - split; [apply consistent_initial|].
    right. split; [reflexivity|]. intros k; right.
    rewrite get_initialResults. split; [reflexivity | discriminate].
  - destruct IH as [Hc Hs]. unfold handleFileChange.
    destruct files as [|f ?].
    + split; [exact Hc | exact Hs].
    + destruct (JS.eqb _ _); (split; cbn [results pending]; [|right; rewrite Hp;
        split; [reflexivity|]; intros k; right; split; [reflexivity|]]).
      * apply consistent_initial.
      * rewrite get_initialResults; discriminate.
      * intros k; destruct k; cbn; try apply consistent_error;
          apply consistent_fresh; discriminate.
      * destruct k; discriminate.
  - unfold handleUpload. unfold buttonEnabled in Hb.
    destruct (file s); [|discriminate].
    split; cbn [results pending].
    + rewrite Hr. apply consistent_initial.
    + left. rewrite Hp. split; [reflexivity | exact Hr].
  - apply (steady_settle s i r s' IH Hstep).
Qed.

Lemma undisturbed_reachable s : undisturbed s -> reachable s.
Proof.
  induction 1 as [|s files _ IH Hp|s _ IH Hp Hr Hb|s i r s' _ IH Hstep].
  - apply reachable_init.
  - apply (reachable_step s (change files)); [exact IH | reflexivity].
  - apply (reachable_step s click); [exact IH|]. cbn. rewrite Hb. reflexivity.
  - apply (reachable_step s (settled i r)); [exact IH | exact Hstep].
Qed.

(** Settled promises alone keep a history undisturbed. *)
Lemma undisturbed_run s evs s' :
  undisturbed s ->
  Forall (fun ev => match ev with settled _ _ => True | _ => False end) evs ->
  run s evs = Some s' ->
  undisturbed s'.
Proof.
  intros U F; revert s U. induction F as [|ev evs Hev _ IH]; intros s U; simpl.
  - intros [= <-]; exact U.
  - destruct ev as [| |i r]; try contradiction.
    destruct (step s (settled i r)) as [s1|] eqn:E; [|discriminate].
    apply IH. eapply undisturbed_settled; [exact U | exact E].
Qed.

Lemma undisturbed_clicked : undisturbed clicked.
Proof.
  apply (undisturbed_click selected); try reflexivity.
  apply (undisturbed_change init [paper]); [apply undisturbed_init | reflexivity].
Qed.

(* ================================================================== *)
(** ** Properties of the component: the result records and their status *)
(* ================================================================== *)

(** C1, as the code has it.  At every reachable state and for every kind:
    a complete record has content and no error, an error record has its
    error set, an idle record has neither content nor error.  In histories
    where each analysis runs alone on freshly reset results the record is
    moreover as the data model says: content exactly when complete, error
    exactly when in status error. *)
Theorem results_sound (s : State) :
  reachable s ->
  forall k,
    sound (get k (results s)) /\
    (undisturbed s -> consistent (get k (results s))).
Proof.
  intros R k. split.
  - apply reachable_sound, R.
  - intros U. apply (undisturbed_steady s U).
Qed.

Lemma results_sound_witness :
  exists s,
    run init first_analysis = Some s /\
    undisturbed s /\
    status (get INSIGHTS (results s)) = Status.complete /\
    status (get ACHIEVEMENTS (results s)) = Status.error /\
    forall k,
      sound (get k (results s)) /\ consistent (get k (results s)).
Proof.
  destruct (run init first_analysis) as [s|] eqn:E; [|discriminate E].
  assert (R : reachable s).
  { eapply run_reachable; [apply reachable_init | exact E]. }
  assert (U : undisturbed s).
  { apply (undisturbed_run clicked (skipn 2 first_analysis));
      [apply undisturbed_clicked | simpl; repeat constructor |].
    rewrite <- E. reflexivity. }
  exists s. split; [reflexivity|]. split; [exact U|].
  assert (Hst : status (get INSIGHTS (results s)) = Status.complete /\
                status (get ACHIEVEMENTS (results s)) = Status.error).
  { vm_compute in E. injection E as <-. split; reflexivity. }
  split; [apply Hst|]. split; [apply Hst|].
  intros k. destruct (results_sound s R k) as [Hs Hc].
  split; [exact Hs | exact (Hc U)].
Defined.

(** C1, as the claim words it, fails across a repeated analysis of the same
    stored file: when the jobs start again, INSIGHTS is loading and still
    holds the content of the first analysis (and ACHIEVEMENTS is loading and
    still holds its error). *)
Lemma results_consistent_counterexample :
  ~ (forall s, reachable s -> forall k, consistent (get k (results s))).
Proof.
  intros H.
  destruct (run init analysed_twice) as [s|] eqn:E; [|discriminate E].
  assert (R : reachable s).
  { eapply run_reachable; [apply reachable_init | exact E]. }
  destruct (H s R INSIGHTS) as [[Hc _] _].
  vm_compute in E. injection E as <-.
  assert (X : Status.loading = Status.complete) by (apply Hc; discriminate).
  discriminate X.
Qed.

(** Across repeated analyses both converses of [consistent] fail: content
    without status complete (INSIGHTS loading again with the content of the
    first analysis), an error without status error (ACHIEVEMENTS loading
    again with the error of the first analysis); and when the second job of
    INSIGHTS fails, its error record still holds the content of the first. *)
Lemma converses_fail_across_analyses :
  ~ (forall s k, reachable s ->
       content (get k (results s)) <> [] ->
       status (get k (results s)) = Status.complete) /\
  ~ (forall s k, reachable s ->
       error (get k (results s)) <> None ->
       status (get k (results s)) = Status.error) /\
  (exists s, reachable s /\
             status (get INSIGHTS (results s)) = Status.error /\
             content (get INSIGHTS (results s)) <> []).
Proof.
  assert (Again : exists s, reachable s /\ run init analysed_twice = Some s).
  { destruct (run init analysed_twice) as [s|] eqn:E; [|discriminate E].
    exists s. split; [|reflexivity].
    eapply run_reachable; [apply reachable_init | exact E]. }
  destruct Again as (s & R & E). vm_compute in E. injection E as <-.
  split; [|split].
  - intros H. specialize (H _ INSIGHTS R). cbn in H.
    assert (X : Status.loading = Status.complete) by (apply H; discriminate).
    discriminate X.
  - intros H. specialize (H _ ACHIEVEMENTS R). cbn in H.
    assert (X : Status.loading = Status.error) by (apply H; discriminate).
    discriminate X.
  - eexists. split; [|split].
    + apply (reachable_step _ (settled 0 (Rejected NonError)) _ R).
      reflexivity.
    + reflexivity.
    + discriminate.
Qed.




(* ================================================================== *)
(** ** Further properties of the formatter *)
(* ================================================================== *)

Lemma trimStart_blank b :
  Forall (fun c => isTrimmed c = true) b -> trimStart b = [].
Proof. induction 1 as [|c t Hc _ IH]; simpl; [|rewrite Hc]; auto. Qed.

Lemma trimEnd_blank b :
  Forall (fun c => isTrimmed c = true) b -> trimEnd b = [].
Proof. induction 1 as [|c t Hc _ IH]; simpl; [|rewrite IH, Hc]; auto. Qed.

Lemma trimEnd_drop s b : trimEnd b = [] -> trimEnd (s ++ b) = trimEnd s.
Proof.
  intros Hb; induction s as [|c s IH]; simpl; [exact Hb|].
  rewrite IH; reflexivity.
Qed.

Lemma trimStart_drop a s :
  Forall (fun c => isTrimmed c = true) a -> trimStart (a ++ s) = trimStart s.
Proof. induction 1 as [|c t Hc _ IH]; simpl; [|rewrite Hc]; auto. Qed.

Lemma trimStart_app s b :
  trimStart (s ++ b) = match trimStart s with [] => trimStart b | r => r ++ b end.
Proof.
  induction s as [|c s IH]; simpl.
  - destruct (trimStart b); reflexivity.
  - destruct (isTrimmed c); [exact IH | reflexivity].
Qed.

Lemma trim_surrounded a s b :
  Forall (fun c => isTrimmed c = true) a ->
  Forall (fun c => isTrimmed c = true) b ->
  trim (a ++ s ++ b) = trim s.
Proof.
  intros Ha Hb. unfold trim. rewrite trimStart_drop by exact Ha.
  rewrite trimStart_app. destruct (trimStart s) as [|c r].
  - rewrite trimStart_blank by exact Hb. reflexivity.
  - apply trimEnd_drop, trimEnd_blank, Hb.
Qed.

(** X1.  An empty response, or one made of white space and line breaks only,
    formats to the bare heading: the heading line and the blank line, with
    no body. *)
Theorem format_blank_input (s : jsstring) (k : AssistantType) :
  Forall (fun c => isTrimmed c = true) s ->
  validateAndFormatResponse s k = heading k.
Proof.
  intros H. unfold validateAndFormatResponse, body, bodyLines, stripPreamble.
  rewrite (trim_blank _ H). cbn. apply app_nil_r.
Qed.

Lemma format_blank_input_witness :
  validateAndFormatResponse [32; 13; 10; 9; 10] RESEARCH_IDEAS
  = js "## Research Opportunities" ++ nl ++ nl.
Proof.
  apply (format_blank_input [32; 13; 10; 9; 10] RESEARCH_IDEAS).
  repeat constructor.
Defined.

(** X2.  White space and blank lines around the response do not change the
    result. *)
Theorem format_ignores_surrounding_space (a s b : jsstring) (k : AssistantType) :
  Forall (fun c => isTrimmed c = true) a ->
  Forall (fun c => isTrimmed c = true) b ->
  validateAndFormatResponse (a ++ s ++ b) k = validateAndFormatResponse s k.
Proof.
  intros Ha Hb.
  unfold validateAndFormatResponse, body, bodyLines, stripPreamble.
  rewrite trim_surrounded by assumption. reflexivity.
Qed.

Lemma format_ignores_surrounding_space_witness :
  validateAndFormatResponse ([10; 32] ++ js "1. One" ++ [32; 13; 10]) INSIGHTS
  = validateAndFormatResponse (js "1. One") INSIGHTS.
Proof.
  apply (format_ignores_surrounding_space [10; 32] (js "1. One") [32; 13; 10]
           INSIGHTS); repeat constructor.
Defined.

Lemma replace_crlf_other c s : c <> 13 -> replace_crlf (c :: s) = c :: replace_crlf s.
Proof.
  intros Hc. destruct s as [|d s]; [reflexivity|].
  rewrite Lines.replace_crlf_cons.
  destruct (N.eqb_spec c 13); [contradiction | reflexivity].
Qed.

(** Reading back the CR LF form of a text gives the text. *)
Lemma replace_crlf_toCRLF s : ~ In 13 s -> replace_crlf (toCRLF s) = s.
Proof.
  induction s as [|c s IH]; [reflexivity|]. intros H.
  assert (Hs : ~ In 13 s) by (simpl in H; tauto).
  cbn [toCRLF]. destruct (N.eqb_spec c 10) as [->|Hn].
  - rewrite Lines.replace_crlf_cons. cbn [N.eqb Pos.eqb andb].
    rewrite IH by exact Hs. reflexivity.
  - rewrite replace_crlf_other by (simpl in H; intros ->; tauto).
    rewrite IH by exact Hs. reflexivity.
Qed.

Lemma toCRLF_nil s : toCRLF s = [] -> s = [].
Proof.
  destruct s as [|c s]; [reflexivity|]. simpl.
  destruct (c =? 10); discriminate.
Qed.

Lemma trimStart_toCRLF s : trimStart (toCRLF s) = toCRLF (trimStart s).
Proof.
  induction s as [|c s IH]; [reflexivity|].
  cbn [toCRLF]. destruct (N.eqb_spec c 10) as [->|Hn].
  - exact IH.
  - cbn [trimStart]. destruct (isTrimmed c) eqn:Hc; [exact IH|].
    cbn [toCRLF]. destruct (N.eqb_spec c 10); [contradiction | reflexivity].
Qed.

Lemma trimEnd_toCRLF s : trimEnd (toCRLF s) = toCRLF (trimEnd s).
Proof.
  induction s as [|c s IH]; [reflexivity|].
  cbn [toCRLF trimEnd]. destruct (trimEnd s) as [|d r] eqn:E.
  - cbn [toCRLF] in IH.
    destruct (N.eqb_spec c 10) as [->|Hn].
    + cbn [trimEnd]. rewrite IH. reflexivity.
    + cbn [trimEnd]. rewrite IH.
      destruct (isTrimmed c); [reflexivity|].
      cbn [toCRLF]. destruct (N.eqb_spec c 10); [contradiction | reflexivity].
  - assert (Hne : toCRLF (d :: r) <> []).
    { intros H; apply toCRLF_nil in H; discriminate. }
    destruct (N.eqb_spec c 10) as [->|Hn].
    + change (13 :: 10 :: toCRLF s) with ([13; 10] ++ toCRLF s).
      rewrite JSFacts.trimEnd_app by (rewrite IH; exact Hne).
      rewrite IH. cbn [toCRLF N.eqb Pos.eqb]. reflexivity.
    + rewrite JSFacts.trimEnd_cons_nonempty by (rewrite IH; exact Hne).
      rewrite IH. change (toCRLF (c :: d :: r)) with
        (if c =? 10 then 13 :: 10 :: toCRLF (d :: r) else c :: toCRLF (d :: r)).
      destruct (N.eqb_spec c 10); [contradiction | reflexivity].
Qed.

Lemma no_cr_no_crlf s : ~ In 13 s -> no_crlf s = true.
Proof.
  induction s as [|c t IH]; [reflexivity|].
  destruct t as [|d t']; [reflexivity|].
  intros H. rewrite Lines.no_crlf_cons, IH by (simpl in *; tauto).
  destruct (N.eqb_spec c 13) as [->|Hn]; [simpl in H; tauto | reflexivity].
Qed.

(** X3.  For a response without carriage returns, writing its line feeds as
    CR LF does not change the result: the line endings are normalised. *)
Theorem format_crlf (s : jsstring) (k : AssistantType) :
  ~ In 13 s ->
  validateAndFormatResponse (toCRLF s) k = validateAndFormatResponse s k.
Proof.
  intros H.
  assert (Ht : ~ In 13 (trim s)) by (intros X; apply H, JSFacts.trim_sub, X).
  unfold validateAndFormatResponse, body, bodyLines, stripPreamble.
  replace (trim (toCRLF s)) with (toCRLF (trim s))
    by (unfold trim; rewrite trimStart_toCRLF, trimEnd_toCRLF; reflexivity).
  rewrite replace_crlf_toCRLF by exact Ht.
  rewrite (Lines.replace_crlf_id (trim s)) by (apply no_cr_no_crlf, Ht).
  reflexivity.
Qed.

Lemma format_crlf_witness :
  validateAndFormatResponse (js "1. One" ++ [13; 10] ++ js "two" ++ [13; 10]) INSIGHTS
  = validateAndFormatResponse (js "1. One" ++ nl ++ js "two" ++ nl) INSIGHTS.
Proof.
  apply (format_crlf (js "1. One" ++ nl ++ js "two" ++ nl) INSIGHTS).
  vm_compute. intuition discriminate.
Defined.

Lemma formatLine_marked l :
  nonBlank l = true -> hasMarker (trim l) = true -> formatLine l = trim l.
Proof.
  unfold formatLine, nonBlank. destruct (trim l) as [|c t]; [discriminate|].
  intros _ ->; reflexivity.
Qed.

(** X4.  A non-blank line left by the preamble stage whose trimmed text
    starts with a numbered or bullet marker is output as the trimmed line:
    its marker is kept and no bullet is added. *)
Theorem marked_line_is_kept (s : jsstring) (k : AssistantType) (i : nat)
  (line : jsstring) :
  nth_error (surviving s) i = Some line ->
  hasMarker (trim line) = true ->
  nth_error (outputLines s k) (S (S i)) = Some (trim line).
Proof.
  intros Hi Hm.
  assert (Hb : nth_error (bodyLines s) i = Some (formatLine line)).
  { rewrite bodyLines_surviving. apply map_nth_error, Hi. }
  rewrite outputLines_shape.
  - cbn [nth_error]. rewrite Hb. f_equal. apply formatLine_marked; [|exact Hm].
    apply nth_error_In in Hi. unfold surviving in Hi.
    apply filter_In in Hi. apply Hi.
  - intros E; rewrite E in Hb. destruct i; discriminate.
Qed.

Lemma marked_line_is_kept_witness :
  nth_error (outputLines (js "a" ++ nl ++ js "  12. b  " ++ nl ++ [8226; 99]) INSIGHTS) 3
  = Some (js "12. b").
Proof.
  apply (marked_line_is_kept _ INSIGHTS 1%nat (js "  12. b  ")); reflexivity.
Defined.

(** X5.  When some non-blank line is left by the preamble stage, the result
    is the heading line, one empty line, and one line for each of those
    lines, in their order: blank lines are dropped and nothing else is. *)
Theorem output_line_for_line (s : jsstring) (k : AssistantType) :
  surviving s <> [] ->
  outputLines s k = title k :: [] :: map formatLine (surviving s) /\
  List.length (outputLines s k) = S (S (List.length (surviving s))).
Proof.
  intros H.
  assert (E : outputLines s k = title k :: [] :: map formatLine (surviving s)).
  { rewrite <- bodyLines_surviving. apply outputLines_shape.
    rewrite bodyLines_surviving. intros X. apply map_eq_nil in X. auto. }
  split; [exact E|]. rewrite E. cbn [List.length]. rewrite length_map.
  reflexivity.
Qed.

Lemma output_line_for_line_witness :
  outputLines (js "a" ++ nl ++ nl ++ js " " ++ nl ++ js "- b") ACHIEVEMENTS
  = [js "## Notable Achievements"; []; js "- a"; js "- b"] /\
  List.length
    (outputLines (js "a" ++ nl ++ nl ++ js " " ++ nl ++ js "- b") ACHIEVEMENTS)
  = 4%nat.
Proof.
  apply (output_line_for_line
           (js "a" ++ nl ++ nl ++ js " " ++ nl ++ js "- b") ACHIEVEMENTS).
  vm_compute. discriminate.
Defined.

(** X6.  No line of the body is empty, has white space around it or holds a
    line feed, and the body holds nothing that the three preamble patterns
    would still remove: the heading is the only [#] line of the result. *)
Theorem body_is_clean (s : jsstring) :
  Forall (fun line => line <> [] /\ trim line = line /\ ~ In 10 line)
    (bodyLines s) /\
  replace_gm (js "#") (body s) = body s /\
  replace_gm (js "Introduction") (body s) = body s /\
  replace_gm (js "Summary") (body s) = body s.
Proof.
  pose proof (bodyLines_formatted s) as F. split.
  - eapply Forall_impl; [|exact F].
    intros o (H1 & H2 & _ & H3 & _). auto.
  - unfold body, replace_gm. destruct (bodyLines s) as [|o l].
    + repeat split.
    + repeat split; apply replace_line_id, joined_clean; simpl; auto.
Qed.

Lemma startsWith_split p h : startsWith p h = true -> exists r, h = p ++ r.
Proof.
  revert h; induction p as [|a p IH]; intros h; simpl.
  - exists h; reflexivity.
  - destruct h as [|c h]; [discriminate|].
    rewrite andb_true_iff, N.eqb_eq. intros [-> H].
    destruct (IH _ H) as [r ->]. exists r; reflexivity.
Qed.

(** On one line, a scan that finds its pattern at the start removes the
    whole line, and a scan that does not find it changes nothing. *)
Lemma replace_line_skip_all p b h :
  Forall (fun c => LineTerminator c = false) h -> replace_line p b true h = [].
Proof.
  intros F; revert b; induction F as [|c h Hc _ IH]; intros b; simpl; auto.
  rewrite Hc. apply IH.
Qed.

Lemma replace_gm_line_match p h :
  startsWith p h = true -> Forall (fun c => LineTerminator c = false) h ->
  replace_gm p h = [].
Proof.
  intros Hs F. unfold replace_gm. destruct F as [|c h Hc F]; [reflexivity|].
  cbn [replace_line]. rewrite Hc. cbn [andb]. rewrite Hs.
  apply replace_line_skip_all, F.
Qed.

Lemma clean_interior p h :
  Forall (fun c => LineTerminator c = false) h -> clean p false h = true.
Proof.
  induction 1 as [|c h Hc _ IH]; [reflexivity|].
  cbn [clean andb negb]. rewrite Hc. exact IH.
Qed.

Lemma replace_gm_line_other p h :
  startsWith p h = false -> Forall (fun c => LineTerminator c = false) h ->
  replace_gm p h = h.
Proof.
  intros Hs F. apply replace_line_id, clean_strengthen;
    [exact Hs | apply clean_interior, F].
Qed.

(** Trimming a line that starts with a preamble pattern keeps the pattern at
    its start. *)
Lemma trim_keeps_pattern p h :
  In p preamble -> startsWith p h = true ->
  exists r, trim h = p ++ r.
Proof.
  intros Hp Hs. destruct (startsWith_split _ _ Hs) as [r ->].
  assert (Hstart : trimStart (p ++ r) = p ++ r /\ trimEnd p = p).
  { destruct Hp as [<-|[<-|[<-|[]]]]; split; reflexivity. }
  destruct Hstart as [E1 E2]. unfold trim. rewrite E1.
  destruct (trimEnd r) as [|c r'] eqn:E.
  - exists []. rewrite trimEnd_drop, app_nil_r; auto.
  - exists (c :: r'). rewrite JSFacts.trimEnd_app; rewrite E; [reflexivity|].
    discriminate.
Qed.

(** X7.  A response of one line that starts with [#], with "Introduction" or
    with "Summary" is removed as preamble: the result is the bare heading. *)
Theorem preamble_line_is_dropped (p h : jsstring) (k : AssistantType) :
  In p preamble ->
  startsWith p h = true ->
  Forall (fun c => LineTerminator c = false) h ->
  validateAndFormatResponse h k = heading k.
Proof.
  intros Hp Hs F.
  destruct (trim_keeps_pattern p h Hp Hs) as [r E].
  assert (F' : Forall (fun c => LineTerminator c = false) (trim h)).
  { rewrite Forall_forall in *. intros x Hx. apply F, JSFacts.trim_sub, Hx. }
  assert (Hcr : replace_crlf (trim h) = trim h).
  { apply Lines.replace_crlf_id, Lines.no_sep_no_crlf. intros X.
    rewrite Forall_forall in F'. specialize (F' _ X). discriminate F'. }
  assert (Hid : trim (trim h) = trim h) by apply JSFacts.trim_idem.
  assert (Hm : startsWith p (trim h) = true).
  { rewrite E. rewrite <- (app_nil_r p) at 1.
    clear. induction p as [|a q IH]; [reflexivity|].
    simpl. rewrite N.eqb_refl. destruct q; [reflexivity | exact IH]. }
  unfold validateAndFormatResponse, body, bodyLines, stripPreamble.
  rewrite Hcr.
  destruct Hp as [<-|[<-|[<-|[]]]].
  - rewrite (replace_gm_line_match _ _ Hm F'). cbn. apply app_nil_r.
  - rewrite (replace_gm_line_other (js "#") (trim h)), Hid;
      [|rewrite E; reflexivity | exact F'].
    rewrite (replace_gm_line_match _ _ Hm F'). cbn. apply app_nil_r.
  - rewrite (replace_gm_line_other (js "#") (trim h)), Hid;
      [|rewrite E; reflexivity | exact F'].
    rewrite (replace_gm_line_other (js "Introduction") (trim h)), Hid;
      [|rewrite E; reflexivity | exact F'].
    rewrite (replace_gm_line_match _ _ Hm F'). cbn. apply app_nil_r.
Qed.

Lemma preamble_line_is_dropped_witness :
  validateAndFormatResponse (js "Summary of findings: the effect is large  ")
    INSIGHTS
  = js "## Key Research Insights" ++ nl ++ nl.
Proof.
  apply (preamble_line_is_dropped (js "Summary")
           (js "Summary of findings: the effect is large  ") INSIGHTS).
  - simpl; auto.
  - reflexivity.
  - vm_compute. repeat constructor.
Defined.

(* ================================================================== *)
(** ** Further properties of the component: what every state satisfies *)
(* ================================================================== *)

Lemma resume_complete_formatted k a r c :
  resume k a r = Some (Complete c) ->
  exists raw, c = validateAndFormatResponse raw k.
Proof.
  destruct a, r; cbn; try discriminate; unfold loopTest.
  - destruct (stillRunning _); discriminate.
  - destruct (JS.eqb _ _); [discriminate|].
    destruct (stillRunning _); discriminate.
  - unfold readResponse.
    destruct (find _ data) as [[? [items|]]|]; try discriminate.
    intros [= <-]. eexists; reflexivity.
Qed.

(** X8.  In every reachable state the record stored under a kind carries
    that kind as its [type], and the content of a complete record is a
    result of the formatter for that kind: it starts with the heading of the
    kind. *)
Theorem results_keyed_and_formatted (s : State) :
  reachable s ->
  forall k,
    type (get k (results s)) = k /\
    (status (get k (results s)) = Status.complete ->
     exists raw, content (get k (results s)) = validateAndFormatResponse raw k).
Proof.
  induction 1 as [|s ev s' _ IH Hstep]; intros k.
  - rewrite get_initialResults. split; [reflexivity | discriminate].
  - destruct ev as [files| |i r]; unfold step in Hstep.
    + assert (E : s' = handleFileChange files s) by congruence. subst s'.
      unfold handleFileChange. destruct files as [|f ?]; [apply IH|].
      destruct (JS.eqb _ _); cbn [results].
      * rewrite get_initialResults. split; [reflexivity | discriminate].
      * destruct k; (split; [reflexivity | discriminate]).
    + destruct (buttonEnabled s); [|discriminate].
      assert (E : s' = handleUpload s) by congruence. subst s'.
      unfold handleUpload. destruct (file s); apply IH.
    + destruct (settle_inv _ _ _ _ Hstep)
        as [(_ & _ & ->)|[(err & _ & _ & ->)|[(k' & a & a' & _ & _ & ->)
           |[(k' & a & c & _ & E & ->)|(k' & a & err & _ & _ & ->)]]]];
        cbn [results].
      * rewrite get_launch. split; [apply IH | discriminate].
      * rewrite get_setAllError. split; [apply IH | discriminate].
      * apply IH.
      * destruct (AssistantType_eq_dec k k') as [->|Hne].
        -- unfold setComplete; rewrite get_set_same. split; [reflexivity|].
           intros _. eapply resume_complete_formatted; exact E.
        -- rewrite get_setComplete_other by exact Hne. apply IH.
      * destruct (AssistantType_eq_dec k k') as [->|Hne].
        -- rewrite get_setError_same. split; [apply IH | discriminate].
        -- rewrite get_setError_other by exact Hne. apply IH.
Qed.

Lemma results_keyed_and_formatted_witness :
  exists s,
    run init first_analysis = Some s /\
    forall k,
      type (get k (results s)) = k /\
      (status (get k (results s)) = Status.complete ->
       exists raw,
         content (get k (results s)) = validateAndFormatResponse raw k).
Proof.
  destruct (run init first_analysis) as [s|] eqn:E; [|discriminate E].
  exists s. split; [reflexivity|].
  apply (results_keyed_and_formatted s).
  eapply run_reachable; [apply reachable_init | exact E].
Defined.

(** X9.  The stored file, when there is one, always has the declared type
    application/pdf: no step stores anything else. *)
Theorem stored_file_is_pdf (s : State) (f : File.t) :
  reachable s -> file s = Some f -> File.type f = js "application/pdf".
Proof.
  intros R; revert f. induction R as [|s ev s' _ IH Hstep]; intros f.
  - discriminate.
  - destruct ev as [files| |i r]; unfold step in Hstep.
    + assert (E : s' = handleFileChange files s) by congruence. subst s'.
      unfold handleFileChange. destruct files as [|g ?]; [apply IH|].
      destruct (JS.eqb _ _) eqn:Eq; cbn [file]; [|discriminate].
      intros [= <-]. apply JSFacts.eqb_eq, Eq.
    + destruct (buttonEnabled s); [|discriminate].
      assert (E : s' = handleUpload s) by congruence. subst s'.
      unfold handleUpload. destruct (file s) eqn:Ef; cbn [file];
        [|rewrite Ef; discriminate].
      apply IH.
    + destruct (settle_inv _ _ _ _ Hstep)
        as [(_ & _ & ->)|[(err & _ & _ & ->)|[(k' & a & a' & _ & _ & ->)
           |[(k' & a & c & _ & E & ->)|(k' & a & err & _ & _ & ->)]]]];
        cbn [file]; apply IH.
Qed.

Lemma stored_file_is_pdf_witness :
  exists s,
    run init analysed_twice = Some s /\
    file s = Some paper /\
    File.type paper = js "application/pdf".
Proof.
  destruct (run init analysed_twice) as [s|] eqn:E; [|discriminate E].
  exists s. split; [reflexivity|].
  assert (R : reachable s).
  { eapply run_reachable; [apply reachable_init | exact E]. }
  assert (F : file s = Some paper).
  { vm_compute in E. injection E as <-. reflexivity. }
  split; [exact F|]. exact (stored_file_is_pdf s paper R F).
Defined.

(* ================================================================== *)
(** ** Further properties of the component: one job *)
(* ================================================================== *)

(** X10.  Whatever reply a job receives, it leaves the stored file and the
    records of the two other kinds as they are: a job writes its own key
    only. *)
Theorem job_writes_own_key (s : State) (i : nat) (k : AssistantType) (a : Await)
  (r : reply) (s' : State) :
  nth_error (pending s) i = Some (job k a) ->
  settle i r s = Some s' ->
  file s' = file s /\
  forall k', k' <> k -> get k' (results s') = get k' (results s).
Proof.
  intros Hn Hstep.
  destruct (settle_inv _ _ _ _ Hstep)
    as [(Hu & _)|[(err & Hu & _)|[(k0 & a0 & a' & Hj & _ & ->)
       |[(k0 & a0 & c & Hj & _ & ->)|(k0 & a0 & err & Hj & _ & ->)]]]];
    try congruence;
    (assert (k0 = k) by congruence; subst k0);
    (split; [reflexivity|]); intros k' Hne; cbn [results].
  - reflexivity.
  - apply get_setComplete_other, Hne.
  - apply get_setError_other, Hne.
Qed.

Lemma job_writes_own_key_witness :
  exists s',
    settle 1 (Rejected NonError) fanned_out = Some s' /\
    file s' = file fanned_out /\
    forall k', k' <> ACHIEVEMENTS ->
               get k' (results s') = get k' (results fanned_out).
Proof.
  eexists. split; [reflexivity|].
  refine (job_writes_own_key fanned_out 1 ACHIEVEMENTS threads_create
            (Rejected NonError) _ eq_refl eq_refl).
Defined.

(** X11.  A rejection of any remote call of a job ends the job: its kind
    goes to status error with the message of the thrown error, or with
    "Analysis failed" when the thrown value is not an error, and keeps its
    type and content; the job is no longer pending. *)
Theorem rejection_ends_job (s : State) (i : nat) (k : AssistantType) (a : Await)
  (err : thrown) :
  nth_error (pending s) i = Some (job k a) ->
  a <> poll_delay ->
  exists s',
    settle i (Rejected err) s = Some s' /\
    get k (results s')
    = mkResult (type (get k (results s))) (content (get k (results s)))
        Status.error (Some (messageOf err (js "Analysis failed"))) /\
    pending s' = remove_nth i (pending s).
Proof.
  intros Hn Ha. unfold settle. rewrite Hn.
  assert (E : resume k a (Rejected err) = Some (Throw err)).
  { destruct a; try reflexivity. contradiction Ha; reflexivity. }
  rewrite E. eexists; split; [reflexivity|]. cbn [results pending].
  rewrite get_setError_same. split; reflexivity.
Qed.

Lemma rejection_ends_job_witness :
  exists s',
    settle 2 (Rejected (ErrorObject (js "429 rate limited"))) fanned_out
    = Some s' /\
    get RESEARCH_IDEAS (results s')
    = mkResult RESEARCH_IDEAS [] Status.error (Some (js "429 rate limited")) /\
    pending s' = [job INSIGHTS threads_create; job ACHIEVEMENTS threads_create].
Proof.
  apply (rejection_ends_job fanned_out 2 RESEARCH_IDEAS threads_create
           (ErrorObject (js "429 rate limited")) eq_refl).
  discriminate.
Defined.

(** X12.  When a status retrieval of the polling loop returns "failed", the
    job ends: its kind goes to status error with the message "Analysis
    failed for <kind>", keeping its type and content, the job is no longer
    pending, and the other kinds are untouched. *)
Theorem failed_run_ends_job (s : State) (i : nat) (k : AssistantType) :
  nth_error (pending s) i = Some (job k runs_retrieve_poll) ->
  exists s',
    settle i (ResolvedRun (js "failed")) s = Some s' /\
    get k (results s')
    = mkResult (type (get k (results s))) (content (get k (results s)))
        Status.error (Some (js "Analysis failed for " ++ typeName k)) /\
    pending s' = remove_nth i (pending s) /\
    forall k', k' <> k -> get k' (results s') = get k' (results s).
Proof.
  intros H. unfold settle. rewrite H. cbn.
  eexists; split; [reflexivity|]. cbn [results pending].
  rewrite get_setError_same. repeat split.
  intros k' Hk. apply get_setError_other, Hk.
Qed.

Lemma failed_run_ends_job_witness :
  exists s',
    settle 1 (ResolvedRun (js "failed"))
      (at_await fanned_out 1 ACHIEVEMENTS runs_retrieve_poll) = Some s' /\
    get ACHIEVEMENTS (results s')
    = mkResult ACHIEVEMENTS [] Status.error
        (Some (js "Analysis failed for ACHIEVEMENTS")) /\
    pending s' = [job INSIGHTS threads_create; job RESEARCH_IDEAS threads_create] /\
    forall k', k' <> ACHIEVEMENTS ->
      get k' (results s')
      = get k' (results (at_await fanned_out 1 ACHIEVEMENTS runs_retrieve_poll)).
Proof.
  apply (failed_run_ends_job
           (at_await fanned_out 1 ACHIEVEMENTS runs_retrieve_poll)
           1 ACHIEVEMENTS eq_refl).
Defined.

Lemma run_app s evs evs' :
  run s (evs ++ evs') =
  match run s evs with Some s' => run s' evs' | None => None end.
Proof.
  revert s; induction evs as [|ev evs IH]; intros s; simpl; [reflexivity|].
  destruct (step s ev); [apply IH | reflexivity].
Qed.

Lemma nth_error_replace_nth {A} (l : list A) i t y :
  nth_error l i = Some t -> nth_error (replace_nth i y l) i = Some y.
Proof.
  revert i; induction l as [|x l IH]; intros [|i]; simpl; try discriminate; auto.
Qed.

Lemma replace_nth_twice {A} (l : list A) i y z :
  replace_nth i z (replace_nth i y l) = replace_nth i z l.
Proof.
  revert i; induction l as [|x l IH]; intros [|i]; simpl; try reflexivity.
  rewrite IH; reflexivity.
Qed.

Lemma remove_nth_replace_nth {A} (l : list A) i y :
  remove_nth i (replace_nth i y l) = remove_nth i l.
Proof.
  revert i; induction l as [|x l IH]; intros [|i]; simpl; try reflexivity.
  rewrite IH; reflexivity.
Qed.

Lemma replace_nth_same {A} (l : list A) i t :
  nth_error l i = Some t -> replace_nth i t l = l.
Proof.
  revert i; induction l as [|x l IH]; intros [|i]; simpl; try discriminate.
  - intros [= ->]; reflexivity.
  - intros H; rewrite (IH _ H); reflexivity.
Qed.

Lemma at_await_same s i k a :
  nth_error (pending s) i = Some (job k a) -> at_await s i k a = s.
Proof.
  intros H. unfold at_await. rewrite (replace_nth_same _ _ _ H).
  destruct s; reflexivity.
Qed.

(** A job suspended at [a] that is resumed goes on to the next await. *)
Lemma step_at_await s i k a r a' t :
  nth_error (pending s) i = Some t ->
  resume k a r = Some (Continue a') ->
  step (at_await s i k a) (settled i r) = Some (at_await s i k a').
Proof.
  intros Hn E. unfold step, settle, at_await. cbn [pending results file].
  rewrite (nth_error_replace_nth _ _ _ _ Hn), E, replace_nth_twice.
  reflexivity.
Qed.

Lemma stillRunning_not_failed st :
  stillRunning st = true -> JS.eqb st (js "failed") = false.
Proof.
  unfold stillRunning. rewrite orb_true_iff, !JSFacts.eqb_eq.
  intros [->| ->]; reflexivity.
Qed.

Lemma polling_at_await s i k t sts :
  nth_error (pending s) i = Some t ->
  Forall (fun st => stillRunning st = true) sts ->
  run (at_await s i k poll_delay) (polling i sts)
  = Some (at_await s i k poll_delay).
Proof.
  intros Hn F. induction F as [|st sts Hst _ IH]; [reflexivity|].
  unfold polling in *. cbn [flat_map pollRound app run].
  rewrite (step_at_await s i k poll_delay Resolved runs_retrieve_poll t Hn eq_refl).
  rewrite (step_at_await s i k runs_retrieve_poll (ResolvedRun st) poll_delay t Hn).
  - exact IH.
  - cbn [resume]. rewrite (stillRunning_not_failed _ Hst).
    unfold loopTest. rewrite Hst. reflexivity.
Qed.

(** X13.  The polling loop has no bound: as long as the retrievals return
    "queued" or "in_progress", however many, the job waits and retrieves
    again, and the state of the component is the same after every turn. *)
Theorem polling_never_gives_up (s : State) (i : nat) (k : AssistantType)
  (statuses : list jsstring) :
  nth_error (pending s) i = Some (job k poll_delay) ->
  Forall (fun st => stillRunning st = true) statuses ->
  run s (polling i statuses) = Some s.
Proof.
  intros Hn F.
  pose proof (polling_at_await s i k _ statuses Hn F) as H.
  rewrite (at_await_same s i k poll_delay Hn) in H. exact H.
Qed.

Lemma polling_never_gives_up_witness :
  run (at_await fanned_out 0 INSIGHTS poll_delay)
    (polling 0 (repeat (js "in_progress") 50 ++ [js "queued"]))
  = Some (at_await fanned_out 0 INSIGHTS poll_delay).
Proof.
  apply (polling_never_gives_up
           (at_await fanned_out 0 INSIGHTS poll_delay) 0 INSIGHTS
           (repeat (js "in_progress") 50 ++ [js "queued"]) eq_refl).
  apply Forall_app; split; [apply Forall_forall; intros x Hx|repeat constructor].
  apply repeat_spec in Hx. subst x. reflexivity.
Defined.

Lemma finish_at_await s i k a r c t :
  nth_error (pending s) i = Some t ->
  resume k a r = Some (Complete c) ->
  step (at_await s i k a) (settled i r)
  = Some (mkState (file s) (setComplete k c (results s))
            (remove_nth i (pending s))).
Proof.
  intros Hn E. unfold step, settle, at_await. cbn [pending results file].
  rewrite (nth_error_replace_nth _ _ _ _ Hn), E, remove_nth_replace_nth.
  reflexivity.
Qed.

Lemma readResponse_text k data m items :
  assistantMessage data = Some m -> Message.content m = Some items ->
  readResponse k data
  = Complete (validateAndFormatResponse (join (nl ++ nl) (map itemText items)) k).
Proof.
  unfold readResponse, assistantMessage. intros -> Hc.
  destruct m as [role c]. cbn in Hc. subst c. reflexivity.
Qed.

Lemma job_completes_at s i k t waits final data m items :
  nth_error (pending s) i = Some t ->
  Forall (fun st => stillRunning st = true) waits ->
  stillRunning final = false ->
  waits = [] \/ final <> js "failed" ->
  assistantMessage data = Some m -> Message.content m = Some items ->
  run (at_await s i k threads_create) (jobReplies i waits final data)
  = Some (mkState (file s)
            (setComplete k
               (validateAndFormatResponse
                  (join (nl ++ nl) (map itemText items)) k)
               (results s))
            (remove_nth i (pending s))).
Proof.
  intros Hn Fw Hf Hfail Hm Hc.
  assert (Last : run (at_await s i k messages_list)
                   [settled i (ResolvedMessages data)]
                 = Some (mkState (file s)
                           (setComplete k
                              (validateAndFormatResponse
                                 (join (nl ++ nl) (map itemText items)) k)
                              (results s))
                           (remove_nth i (pending s)))).
  { cbn [run].
    rewrite (finish_at_await s i k messages_list (ResolvedMessages data)
               (validateAndFormatResponse
                  (join (nl ++ nl) (map itemText items)) k) t Hn);
      [reflexivity|].
    cbn [resume]. rewrite (readResponse_text k data m items Hm Hc). reflexivity. }
  unfold jobReplies, run_created. cbn [app run].
  rewrite (step_at_await s i k threads_create Resolved _ t Hn eq_refl).
  rewrite (step_at_await s i k messages_create Resolved _ t Hn eq_refl).
  rewrite (step_at_await s i k runs_create Resolved _ t Hn eq_refl).
  destruct Fw as [|w ws Hw Fws].
  - (* the first retrieval already returns the final status *)
    cbn [hd tl app polling flat_map run].
    rewrite (step_at_await s i k runs_retrieve_first (ResolvedRun final)
               messages_list t Hn);
      [|cbn [resume]; unfold loopTest; rewrite Hf; reflexivity].
    exact Last.
  - (* the loop is entered and left after its last retrieval *)
    destruct Hfail as [X|Hfail]; [discriminate X|].
    apply JSFacts.eqb_neq in Hfail.
    cbn [hd tl app].
    rewrite (step_at_await s i k runs_retrieve_first (ResolvedRun w)
               poll_delay t Hn);
      [|cbn [resume]; unfold loopTest; rewrite Hw; reflexivity].
    unfold polling. rewrite flat_map_app. fold (polling i ws).
    rewrite <- app_assoc, run_app.
    rewrite (polling_at_await s i k t ws Hn Fws).
    cbn [flat_map pollRound app run].
    rewrite (step_at_await s i k poll_delay Resolved _ t Hn eq_refl).
    rewrite (step_at_await s i k runs_retrieve_poll (ResolvedRun final)
               messages_list t Hn);
      [|cbn [resume]; rewrite Hfail; unfold loopTest; rewrite Hf; reflexivity].
    exact Last.
Qed.

(** X14.  A whole job.  When the thread, the message and the run are
    created, the status retrievals return "queued" or "in_progress" any
    number of times and then another status (not "failed", unless it is the
    very first retrieval that returns it), and the listing holds an
    assistant message with a content list, then the job ends with its kind
    complete, holding the formatted join of the texts of the segments; the
    job is no longer pending and nothing else has changed. *)
Theorem job_completes (s : State) (i : nat) (k : AssistantType)
  (waits : list jsstring) (final : jsstring) (data : list Message.t)
  (m : Message.t) (items : list ContentItem) :
  nth_error (pending s) i = Some (job k threads_create) ->
  Forall (fun st => stillRunning st = true) waits ->
  stillRunning final = false ->
  waits = [] \/ final <> js "failed" ->
  assistantMessage data = Some m -> Message.content m = Some items ->
  run s (jobReplies i waits final data)
  = Some (mkState (file s)
            (setComplete k
               (validateAndFormatResponse
                  (join (nl ++ nl) (map itemText items)) k)
               (results s))
            (remove_nth i (pending s))).
Proof.
  intros Hn Fw Hf Hfail Hm Hc.
  pose proof (job_completes_at s i k _ waits final data m items
                Hn Fw Hf Hfail Hm Hc) as H.
  rewrite (at_await_same s i k threads_create Hn) in H. exact H.
Qed.

Lemma job_completes_witness :
  run fanned_out
    (jobReplies 0 [js "queued"; js "in_progress"] (js "completed")
       [question; answer (js "Finding")])
  = Some (mkState (Some paper)
            (setComplete INSIGHTS
               (js "## Key Research Insights" ++ nl ++ nl ++ js "- Finding")
               (results fanned_out))
            [job ACHIEVEMENTS threads_create; job RESEARCH_IDEAS threads_create]).
Proof.
  apply (job_completes fanned_out 0 INSIGHTS [js "queued"; js "in_progress"]
           (js "completed") [question; answer (js "Finding")]
           (answer (js "Finding")) [TextItem (Some (js "Finding"))]);
    try reflexivity.
  - repeat constructor.
  - right. discriminate.
Defined.

(* ================================================================== *)
(** ** Further properties of the component: selection, upload, display *)
(* ================================================================== *)

(** X15.  When the upload resolves, from any state, the three jobs start
    together: every kind goes to loading and keeps the type, content and
    error it had, and one job per kind is pending at its first await, after
    the activities that were pending already. *)
Theorem upload_resolved_starts_jobs (s : State) (i : nat) :
  nth_error (pending s) i = Some upload ->
  exists s',
    settle i Resolved s = Some s' /\
    file s' = file s /\
    (forall k,
       get k (results s')
       = mkResult (type (get k (results s))) (content (get k (results s)))
           Status.loading (error (get k (results s)))) /\
    pending s'
    = remove_nth i (pending s) ++
      [job INSIGHTS threads_create; job ACHIEVEMENTS threads_create;
       job RESEARCH_IDEAS threads_create].
Proof.
  intros H. unfold settle. rewrite H.
  eexists; split; [reflexivity|]. cbn [file results pending].
  split; [reflexivity|]. split; [|reflexivity].
  intros k. apply get_launch.
Qed.

Lemma upload_resolved_starts_jobs_witness :
  exists s',
    settle 0 Resolved (handleUpload left_over) = Some s' /\
    file s' = Some paper /\
    (forall k,
       get k (results s')
       = mkResult (type (get k (results left_over)))
           (content (get k (results left_over)))
           Status.loading (error (get k (results left_over)))) /\
    pending s'
    = [job INSIGHTS threads_create; job ACHIEVEMENTS threads_create;
       job RESEARCH_IDEAS threads_create].
Proof.
  apply (upload_resolved_starts_jobs (handleUpload left_over) 0 eq_refl).
Defined.

(** X16.  After the selection of a file that is not a PDF the analysis
    cannot be asked for, whatever was stored before: the button is not
    enabled. *)
Theorem rejected_selection_blocks_analysis (s : State) (selectedFile : File.t)
  (others : list File.t) :
  File.type selectedFile <> js "application/pdf" ->
  buttonEnabled (handleFileChange (selectedFile :: others) s) = false /\
  step (handleFileChange (selectedFile :: others) s) click = None.
Proof.
  intros H. apply JSFacts.eqb_neq in H.
  unfold step, buttonEnabled, handleFileChange. rewrite H. split; reflexivity.
Qed.

Lemma rejected_selection_blocks_analysis_witness :
  buttonEnabled (handleFileChange [notes] left_over) = false /\
  step (handleFileChange [notes] left_over) click = None.
Proof.
  apply (rejected_selection_blocks_analysis left_over notes []).
  vm_compute. discriminate.
Defined.

(** X17.  Selecting a new PDF does not cancel the jobs in flight.  A job
    that is about to read its thread when the file is replaced still
    completes, and writes its content into the results that the selection
    has just reset for the new file. *)
Theorem selection_does_not_cancel_jobs (s : State) (i : nat) (k : AssistantType)
  (f : File.t) (data : list Message.t) (m : Message.t)
  (items : list ContentItem) :
  nth_error (pending s) i = Some (job k messages_list) ->
  File.type f = js "application/pdf" ->
  assistantMessage data = Some m -> Message.content m = Some items ->
  run s [change [f]; settled i (ResolvedMessages data)]
  = Some (mkState (Some f)
            (setComplete k
               (validateAndFormatResponse
                  (join (nl ++ nl) (map itemText items)) k)
               initialResults)
            (remove_nth i (pending s))).
Proof.
  intros Hn Hf Hm Hc. apply JSFacts.eqb_eq in Hf.
  cbn [run step]. unfold handleFileChange. rewrite Hf.
  unfold settle. cbn [pending results file]. rewrite Hn.
  cbn [resume]. rewrite (readResponse_text k data m items Hm Hc).
  reflexivity.
Qed.

Lemma selection_does_not_cancel_jobs_witness :
  run (at_await fanned_out 0 INSIGHTS messages_list)
    [change [File.mk (js "other.pdf") (js "application/pdf")];
     settled 0 (ResolvedMessages [answer (js "About the first paper")])]
  = Some (mkState (Some (File.mk (js "other.pdf") (js "application/pdf")))
            (setComplete INSIGHTS
               (js "## Key Research Insights" ++ nl ++ nl ++
                js "- About the first paper")
               initialResults)
            [job ACHIEVEMENTS threads_create; job RESEARCH_IDEAS threads_create]).
Proof.
  apply (selection_does_not_cancel_jobs
           (at_await fanned_out 0 INSIGHTS messages_list) 0 INSIGHTS
           (File.mk (js "other.pdf") (js "application/pdf"))
           [answer (js "About the first paper")]
           (answer (js "About the first paper"))
           [TextItem (Some (js "About the first paper"))]);
    reflexivity.
Defined.

(** X18.  The button is disabled by the loading status only, which is set
    when the upload resolves: a second click before that is accepted, and
    when the two uploads have resolved every kind has two jobs in flight. *)
Theorem second_click_is_accepted (s : State) :
  buttonEnabled s = true ->
  pending s = [] ->
  exists s',
    run s [click; click; settled 0 Resolved; settled 0 Resolved] = Some s' /\
    forall k,
      count (isJob k) (pending s') = 2%nat /\
      status (get k (results s')) = Status.loading.
Proof.
  intros Hb Hp. destruct s as [f r p]. cbn in Hp. subst p.
  assert (Hb' : buttonEnabled (handleUpload (mkState f r [])) = true).
  { unfold buttonEnabled, handleUpload in *. cbn [file results] in *.
    destruct f; [exact Hb | discriminate Hb]. }
  cbn [run step]. rewrite Hb, Hb'.
  unfold buttonEnabled in Hb. cbn [file] in Hb.
  destruct f as [f|]; [|discriminate Hb].
  eexists; split; [reflexivity|].
  intros k. cbn [pending results]. split; destruct k; reflexivity.
Qed.

Lemma second_click_is_accepted_witness :
  exists s',
    run selected [click; click; settled 0 Resolved; settled 0 Resolved]
    = Some s' /\
    forall k,
      count (isJob k) (pending s') = 2%nat /\
      status (get k (results s')) = Status.loading.
Proof.
  apply (second_click_is_accepted selected); reflexivity.
Defined.

(** X19.  In every reachable state a card never shows an error panel
    without a message, nor a markdown panel without content. *)
Theorem card_is_never_blank (s : State) (k : AssistantType)
  (description : jsstring) :
  reachable s ->
  ResultCard (results s) k description <> ErrorText None /\
  ResultCard (results s) k description <> Markdown [].
Proof.
  intros R. destruct (reachable_sound s R k) as (Hc & He & _).
  unfold ResultCard. destruct (status (get k (results s)));
    split; intros X; try discriminate X; injection X as X.
  - destruct (Hc eq_refl) as [H _]. contradiction.
  - apply (He eq_refl), X.
Qed.

Lemma card_is_never_blank_witness :
  exists s,
    run init first_analysis = Some s /\
    ResultCard (results s) INSIGHTS (js "Top points")
    = Markdown (js "## Key Research Insights" ++ nl ++ nl ++ js "- Finding") /\
    ResultCard (results s) ACHIEVEMENTS (js "Novel methods")
    = ErrorText (Some (js "Analysis failed")) /\
    (ResultCard (results s) INSIGHTS (js "Top points") <> ErrorText None /\
     ResultCard (results s) INSIGHTS (js "Top points") <> Markdown []) /\
    (ResultCard (results s) ACHIEVEMENTS (js "Novel methods") <> ErrorText None /\
     ResultCard (results s) ACHIEVEMENTS (js "Novel methods") <> Markdown []).
Proof.
  destruct (run init first_analysis) as [s|] eqn:E; [|discriminate E].
  assert (R : reachable s).
  { eapply run_reachable; [apply reachable_init | exact E]. }
  exists s. split; [reflexivity|].
  assert (Cards :
    ResultCard (results s) INSIGHTS (js "Top points")
    = Markdown (js "## Key Research Insights" ++ nl ++ nl ++ js "- Finding") /\
    ResultCard (results s) ACHIEVEMENTS (js "Novel methods")
    = ErrorText (Some (js "Analysis failed"))).
  { vm_compute in E. injection E as <-. split; reflexivity. }
  split; [apply Cards|]. split; [apply Cards|]. split.
  - apply (card_is_never_blank s INSIGHTS (js "Top points") R).
  - apply (card_is_never_blank s ACHIEVEMENTS (js "Novel methods") R).
Defined.

(** X20.  In histories where each analysis runs alone on freshly reset
    results, at most one upload and at most one job per kind are in flight,
    and a kind is loading exactly when its job is in flight. *)
Theorem loading_means_job_in_flight (s : State) (k : AssistantType) :
  undisturbed s ->
  (count isUpload (pending s) <= 1)%nat /\
  (count (isJob k) (pending s) <= 1)%nat /\
  (status (get k (results s)) = Status.loading <->
   count (isJob k) (pending s) = 1%nat).
Proof.
  intros U. destruct (undisturbed_steady s U) as [_ [[Hp Hr]|[Hu Hj]]].
  - rewrite Hp, Hr, get_initialResults.
    replace (count (isJob k) [upload]) with 0%nat by (destruct k; reflexivity).
    cbn. repeat split; try lia; discriminate.
  - rewrite Hu. split; [lia|].
    destruct (Hj k) as [[H1 H2]|[H1 H2]]; rewrite H1; split; try lia.
    + split; auto.
    + split; [intros X; contradiction | discriminate].
Qed.

Lemma loading_means_job_in_flight_witness :
  (count isUpload (pending clicked) <= 1)%nat /\
  (count (isJob INSIGHTS) (pending clicked) <= 1)%nat /\
  (status (get INSIGHTS (results clicked)) = Status.loading <->
   count (isJob INSIGHTS) (pending clicked) = 1%nat).
Proof.
  apply (loading_means_job_in_flight clicked INSIGHTS).
  apply (undisturbed_click selected); try reflexivity.
  apply (undisturbed_change init [paper]); [apply undisturbed_init | reflexivity].
Defined.
